(** * Foot-Insites ETL: normalisation and validation core

    A shallow embedding of the pipeline stages under [scripts/etl]:
    the reference-table builder ([create_reference_tables.py]), the
    normaliser ([normalize_data.py]), the match splitter
    ([split_matches.py]), the metrics deriver ([derive_metrics.py]) and
    the validator ([validate_data.py]).

    Tables are lists of typed rows.  A pandas cell that may be missing
    (NaN / None) is an [option]; integer counters are [Z]; float columns
    (possession, xG, derived ratios) are exact rationals [Q], so IEEE
    rounding is abstracted.  A CSV file that may be absent is an [option]
    table; writing then reading a CSV is the identity on tables.  Console
    output (the progress lines printed by every stage) is not part of the
    model. *)

From Stdlib Require Import QArith Lqa.
From stdpp Require Import gmap strings list.

Local Open Scope Z_scope.
Local Open Scope string_scope.
Local Open Scope list_scope.

(** ** Cells *)

Module Cell.

(** A nullable cell: [None] is pandas' NaN / None. *)
Definition cell (A : Type) : Type := option A.

(** [pd.notna] / [pd.isna]. *)
Definition notna {A} (c : cell A) : bool :=
  match c with Some _ => true | None => false end.
Definition isnull {A} (c : cell A) : bool := negb (notna c).

(** Python truthiness of a [str]: the empty string is falsy. *)
Definition truthy (s : string) : bool := bool_decide (s ≠ "").

(** Comparisons involving a NaN are [False], except [!=] which is [True]. *)
Definition zgt (a b : cell Z) : bool :=
  match a, b with Some x, Some y => bool_decide (y < x) | _, _ => false end.
Definition zlt (a b : cell Z) : bool := zgt b a.
Definition zeq (a b : cell Z) : bool :=
  match a, b with Some x, Some y => bool_decide (x = y) | _, _ => false end.
Definition zne (a b : cell Z) : bool := negb (zeq a b).

Definition qgt (a b : cell Q) : bool :=
  match a, b with
  | Some x, Some y => negb (Qle_bool x y)
  | _, _ => false
  end.
Definition qlt (a b : cell Q) : bool := qgt b a.

(** Arithmetic propagates NaN. *)
Definition zadd (a b : cell Z) : cell Z :=
  match a, b with Some x, Some y => Some (x + y) | _, _ => None end.
Definition zsub (a b : cell Z) : cell Z :=
  match a, b with Some x, Some y => Some (x - y) | _, _ => None end.
Definition zmul (a b : cell Z) : cell Z :=
  match a, b with Some x, Some y => Some (x * y) | _, _ => None end.
Definition qsub (a b : cell Q) : cell Q :=
  match a, b with Some x, Some y => Some (x - y)%Q | _, _ => None end.

(** [Series.fillna(0)] on one cell. *)
Definition fillna0 (a : cell Z) : Z := default 0 a.

(** [num / den * 100] on integer cells read as floats. *)
Definition ratio (num den : Z) : Q := (inject_Z num / inject_Z den)%Q.
Definition pct (num den : Z) : Q := (ratio num den * 100)%Q.

End Cell.
Import Cell.

(** ** Cleaned source tables *)

(** A row of [clean_league_matches.csv] (its [FINAL_COLUMNS]).  The key
    columns [date], [home_team], [away_team] are never null: the cleaner
    drops such rows. *)
Record LeagueMatch : Type := {
  lm_date : string;
  lm_time : cell string;
  lm_competition_name : string;
  lm_season : cell string;
  lm_home_team : string;
  lm_away_team : string;
  lm_home_goals : cell Z;
  lm_away_goals : cell Z;
  lm_home_shots : cell Z;
  lm_away_shots : cell Z;
  lm_home_sot : cell Z;
  lm_away_sot : cell Z;
  lm_home_fouls : cell Z;
  lm_away_fouls : cell Z;
  lm_home_corners : cell Z;
  lm_away_corners : cell Z;
  lm_home_yellow : cell Z;
  lm_away_yellow : cell Z;
  lm_home_red : cell Z;
  lm_away_red : cell Z;
  lm_referee : cell string
}.

(** A row of [clean_wc_matches.csv] (its [FINAL_COLUMNS]); the cleaner
    drops the rows whose [home_team] or [away_team] is null. *)
Record WCMatch : Type := {
  wm_date : cell string;
  wm_time : cell string;
  wm_competition_name : string;
  wm_season : cell string;
  wm_home_team : string;
  wm_away_team : string;
  wm_home_goals : cell Z;
  wm_away_goals : cell Z;
  wm_home_xg : cell Q;
  wm_away_xg : cell Q;
  wm_home_possession : cell Q;
  wm_away_possession : cell Q;
  wm_home_shots : cell Z;
  wm_away_shots : cell Z;
  wm_home_sot : cell Z;
  wm_away_sot : cell Z;
  wm_home_passes_completed : cell Z;
  wm_home_passes_attempted : cell Z;
  wm_away_passes_completed : cell Z;
  wm_away_passes_attempted : cell Z;
  wm_home_tackles : cell Z;
  wm_away_tackles : cell Z;
  wm_home_interceptions : cell Z;
  wm_away_interceptions : cell Z;
  wm_home_clearances : cell Z;
  wm_away_clearances : cell Z;
  wm_home_saves : cell Z;
  wm_away_saves : cell Z;
  wm_venue : cell string
}.

(** ** Reference tables: [create_reference_tables.py] *)

(** A row of [ref_teams.csv]. *)
Record Team : Type := {
  team_id : cell Z;
  team_name : string;
  competition_type : string;
  country : cell string;
  primary_competition : string
}.

(** The loop state of [create_teams_table]: the list [teams_data], the
    running [team_id_counter] and the set [seen_teams]. *)
Record teams_state : Type := {
  teams_data : list Team;
  team_id_counter : Z;
  seen_teams : gset string
}.

(** One guarded block
    [if row[..] and row[..] not in seen_teams: append; add; counter += 1]. *)
Definition add_team (name ctype : string) (ctry : cell string)
    (competition : string) (st : teams_state) : teams_state :=
  if truthy name && bool_decide (name ∉ seen_teams st) then
    {| teams_data :=
         teams_data st ++
           [ {| team_id := Some (team_id_counter st);
                team_name := name;
                competition_type := ctype;
                country := ctry;
                primary_competition := competition |} ];
       team_id_counter := team_id_counter st + 1;
       seen_teams := {[ name ]} ∪ seen_teams st |}
  else st.

(** Body of the loop over the league rows: home team, then away team. *)
Definition league_row_step (st : teams_state) (row : LeagueMatch) : teams_state :=
  let competition := lm_competition_name row in
  let st := add_team (lm_home_team row) "league" None competition st in
  add_team (lm_away_team row) "league" None competition st.

(** Body of the loop over the World-Cup rows: home team, then away team. *)
Definition wc_row_step (st : teams_state) (row : WCMatch) : teams_state :=
  let st := add_team (wm_home_team row) "international"
              (Some (wm_home_team row)) "World Cup" st in
  add_team (wm_away_team row) "international"
    (Some (wm_away_team row)) "World Cup" st.

Definition teams_init : teams_state :=
  {| teams_data := []; team_id_counter := 1; seen_teams := ∅ |}.

(** [create_teams_table]: each source file is scanned only if it exists. *)
Definition create_teams_table
    (league : option (list LeagueMatch)) (wc : option (list WCMatch)) : list Team :=
  let st := teams_init in
  let st := match league with
            | Some df => foldl league_row_step st df
            | None => st
            end in
  let st := match wc with
            | Some df => foldl wc_row_step st df
            | None => st
            end in
  teams_data st.

(** The same table, described the way the builder's contract words it: the
    stream of candidate rows (league rows first, home before away, then
    World-Cup rows, home before away), of which only the first occurrence
    of each name is kept, numbered from the next unused integer. *)
Definition league_candidates (df : list LeagueMatch) : list Team :=
  concat (map (λ row,
    [ {| team_id := None; team_name := lm_home_team row;
         competition_type := "league"; country := None;
         primary_competition := lm_competition_name row |};
      {| team_id := None; team_name := lm_away_team row;
         competition_type := "league"; country := None;
         primary_competition := lm_competition_name row |} ]) df).

Definition wc_candidates (df : list WCMatch) : list Team :=
  concat (map (λ row,
    [ {| team_id := None; team_name := wm_home_team row;
         competition_type := "international";
         country := Some (wm_home_team row);
         primary_competition := "World Cup" |};
      {| team_id := None; team_name := wm_away_team row;
         competition_type := "international";
         country := Some (wm_away_team row);
         primary_competition := "World Cup" |} ]) df).

Fixpoint first_seen (cs : list Team) : list Team :=
  match cs with
  | [] => []
  | c :: cs' =>
      c :: filter (λ d, team_name d ≠ team_name c) (first_seen cs')
  end.

Definition with_id (k : Z) (c : Team) : Team :=
  {| team_id := Some k; team_name := team_name c;
     competition_type := competition_type c; country := country c;
     primary_competition := primary_competition c |}.

Fixpoint assign_ids (next : Z) (cs : list Team) : list Team :=
  match cs with
  | [] => []
  | c :: cs' => with_id next c :: assign_ids (next + 1) cs'
  end.

(** The guarded block of the loop, seen as consuming one candidate row. *)
Definition add_candidate (st : teams_state) (c : Team) : teams_state :=
  add_team (team_name c) (competition_type c) (country c)
           (primary_competition c) st.

Definition teams_by_first_appearance
    (league : list LeagueMatch) (wc : list WCMatch) : list Team :=
  assign_ids 1 (first_seen (league_candidates league ++ wc_candidates wc)).

(** Every name occurring as home or away team in either match table. *)
Definition match_team_names
    (league : list LeagueMatch) (wc : list WCMatch) : list string :=
  map team_name (league_candidates league ++ wc_candidates wc).

(** A row of [clean_wc_players.csv] (its [FINAL_COLUMNS]); rows without a
    player name are dropped by the cleaner, the team may be missing. *)
Record PlayerRow : Type := {
  pr_player : string;
  pr_team : cell string;
  pr_position : cell string;
  pr_age : cell Z;
  pr_minutes : cell Z;
  pr_games : cell Z;
  pr_goals : cell Z;
  pr_assists : cell Z;
  pr_shots : cell Z;
  pr_shots_on_target : cell Z;
  pr_passes_completed : cell Z;
  pr_passes : cell Z;
  pr_passes_pct : cell Q;
  pr_tackles : cell Z;
  pr_interceptions : cell Z;
  pr_clearances : cell Z;
  pr_touches : cell Z;
  pr_dispossessed : cell Z;
  pr_xg : cell Q;
  pr_xg_assist : cell Q
}.

(** A row of [ref_players.csv]. *)
Record Player : Type := {
  player_id : cell Z;
  player_name : string;
  p_team_id : cell Z;
  p_team_name : cell string;
  position : cell string;
  age : cell Z
}.

(** [dict(zip(keys, values))]: a later pair overrides an earlier one. *)
Definition dict_zip `{Countable K} {V} (kvs : list (K * V)) : gmap K V :=
  foldl (λ m kv, <[ kv.1 := kv.2 ]> m) ∅ kvs.

(** [d.get(key)] where the stored value may itself be NaN, and
    [Series.map(d)], which yields NaN for a key that is absent. *)
Definition dict_get `{Countable K} {V} (d : gmap K (cell V)) (k : K) : cell V :=
  match d !! k with Some v => v | None => None end.

(** [dict(zip(teams_df['team_name'], teams_df['team_id']))]. *)
Definition team_name_to_id (teams_df : list Team) : gmap string (cell Z) :=
  dict_zip (map (λ t, (team_name t, team_id t)) teams_df).

(** A missing team cell is no key of the dictionary. *)
Definition lookup_team (d : gmap string (cell Z)) (team : cell string) : cell Z :=
  match team with Some name => dict_get d name | None => None end.

(** The [iterrows] loop of [create_players_table]: [idx] is the 0-based
    row position, [player_id = idx + 1]. *)
Fixpoint players_loop (d : gmap string (cell Z)) (idx : Z)
    (df : list PlayerRow) : list Player :=
  match df with
  | [] => []
  | row :: rest =>
      {| player_id := Some (idx + 1);
         player_name := pr_player row;
         p_team_id := lookup_team d (pr_team row);
         p_team_name := pr_team row;
         position := pr_position row;
         age := pr_age row |} :: players_loop d (idx + 1) rest
  end.

(** [create_players_table]: [None] is the early [return None] taken when
    [ref_teams.csv] or [clean_wc_players.csv] does not exist. *)
Definition create_players_table
    (teams : option (list Team)) (players : option (list PlayerRow))
    : option (list Player) :=
  match teams with
  | None => None
  | Some teams_df =>
      let d := team_name_to_id teams_df in
      match players with
      | None => None
      | Some df => Some (players_loop d 0 df)
      end
  end.

(** ** Normaliser: [normalize_data.py] *)

(** A row of [normalized_league_matches.csv]: the two id columns put in
    front of the cleaned row. *)
Record NormLeagueMatch : Type := {
  nl_home_team_id : cell Z;
  nl_away_team_id : cell Z;
  nl_row : LeagueMatch
}.

Record NormWCMatch : Type := {
  nw_home_team_id : cell Z;
  nw_away_team_id : cell Z;
  nw_row : WCMatch
}.

Definition normalize_league_row (d : gmap string (cell Z))
    (row : LeagueMatch) : NormLeagueMatch :=
  {| nl_home_team_id := dict_get d (lm_home_team row);
     nl_away_team_id := dict_get d (lm_away_team row);
     nl_row := row |}.

Definition normalize_wc_row (d : gmap string (cell Z))
    (row : WCMatch) : NormWCMatch :=
  {| nw_home_team_id := dict_get d (wm_home_team row);
     nw_away_team_id := dict_get d (wm_away_team row);
     nw_row := row |}.

(** [normalize_matches]: [(None, None)] when [ref_teams.csv] is missing. *)
Definition normalize_matches (teams : option (list Team))
    (league : option (list LeagueMatch)) (wc : option (list WCMatch))
    : option (list NormLeagueMatch) * option (list NormWCMatch) :=
  match teams with
  | None => (None, None)
  | Some teams_df =>
      let d := team_name_to_id teams_df in
      (fmap (map (normalize_league_row d)) league,
       fmap (map (normalize_wc_row d)) wc)
  end.

(** A row of [normalized_wc_players.csv]. *)
Record NormPlayerRow : Type := {
  np_player_id : cell Z;
  np_team_id : cell Z;
  np_row : PlayerRow
}.

Definition normalize_players (teams : option (list Team))
    (ref_players : option (list Player)) (stats : option (list PlayerRow))
    : option (list NormPlayerRow) :=
  match teams, ref_players with
  | Some _, Some players_df =>
      match stats with
      | None => None
      | Some stats_df =>
          let player_name_team_to_id : gmap (string * cell string) (cell Z) :=
            dict_zip (map (λ p, ((player_name p, p_team_name p), player_id p))
                          players_df) in
          let id_to_team : gmap Z (cell Z) :=
            dict_zip (omap (λ p, match player_id p with
                                 | Some i => Some (i, p_team_id p)
                                 | None => None
                                 end) players_df) in
          Some (map (λ row,
            let pid := dict_get player_name_team_to_id (pr_player row, pr_team row) in
            {| np_player_id := pid;
               np_team_id := match pid with
                             | Some i => dict_get id_to_team i
                             | None => None
                             end;
               np_row := row |}) stats_df)
      end
  | _, _ => None
  end.

(** ** Match splitter: [split_matches.py] *)

(** A row of [db_matches_base.csv] ([BASE_COLUMNS]). *)
Record MatchBase : Type := {
  match_id : cell Z;
  competition_name : string;
  season : cell string;
  date : cell string;
  time : cell string;
  home_team_id : cell Z;
  away_team_id : cell Z;
  home_goals : cell Z;
  away_goals : cell Z;
  home_shots : cell Z;
  away_shots : cell Z;
  home_sot : cell Z;
  away_sot : cell Z;
  home_fouls : cell Z;
  away_fouls : cell Z;
  home_corners : cell Z;
  away_corners : cell Z;
  home_yellow : cell Z;
  away_yellow : cell Z;
  home_red : cell Z;
  away_red : cell Z;
  venue : cell string;
  referee : cell string
}.

(** A row of [db_match_stats_advanced.csv] ([ADVANCED_COLUMNS]). *)
Record MatchStatsAdvanced : Type := {
  adv_match_id : cell Z;
  home_xg : cell Q;
  away_xg : cell Q;
  home_possession : cell Q;
  away_possession : cell Q;
  home_passes_completed : cell Z;
  home_passes_attempted : cell Z;
  away_passes_completed : cell Z;
  away_passes_attempted : cell Z;
  home_tackles : cell Z;
  away_tackles : cell Z;
  home_interceptions : cell Z;
  away_interceptions : cell Z;
  home_clearances : cell Z;
  away_clearances : cell Z;
  home_saves : cell Z;
  away_saves : cell Z
}.

(** The [base_match] dictionary built for a league row; [row.get] of a
    column the league file does not have ([venue]) is [None]. *)
Definition league_base_match (match_id_counter : Z) (row : NormLeagueMatch) : MatchBase :=
  let r := nl_row row in
  {| match_id := Some match_id_counter;
     competition_name := lm_competition_name r;
     season := lm_season r;
     date := Some (lm_date r);
     time := lm_time r;
     home_team_id := nl_home_team_id row;
     away_team_id := nl_away_team_id row;
     home_goals := lm_home_goals r;
     away_goals := lm_away_goals r;
     home_shots := lm_home_shots r;
     away_shots := lm_away_shots r;
     home_sot := lm_home_sot r;
     away_sot := lm_away_sot r;
     home_fouls := lm_home_fouls r;
     away_fouls := lm_away_fouls r;
     home_corners := lm_home_corners r;
     away_corners := lm_away_corners r;
     home_yellow := lm_home_yellow r;
     away_yellow := lm_away_yellow r;
     home_red := lm_home_red r;
     away_red := lm_away_red r;
     venue := None;
     referee := lm_referee r |}.

(** The [base_match] dictionary built for a World-Cup row: the file has no
    foul, corner or card columns, and [referee] is set to [None]. *)
Definition wc_base_match (match_id_counter : Z) (row : NormWCMatch) : MatchBase :=
  let r := nw_row row in
  {| match_id := Some match_id_counter;
     competition_name := wm_competition_name r;
     season := wm_season r;
     date := wm_date r;
     time := wm_time r;
     home_team_id := nw_home_team_id row;
     away_team_id := nw_away_team_id row;
     home_goals := wm_home_goals r;
     away_goals := wm_away_goals r;
     home_shots := wm_home_shots r;
     away_shots := wm_away_shots r;
     home_sot := wm_home_sot r;
     away_sot := wm_away_sot r;
     home_fouls := None;
     away_fouls := None;
     home_corners := None;
     away_corners := None;
     home_yellow := None;
     away_yellow := None;
     home_red := None;
     away_red := None;
     venue := wm_venue r;
     referee := None |}.

Definition wc_advanced_stats (match_id_counter : Z) (row : NormWCMatch)
    : MatchStatsAdvanced :=
  let r := nw_row row in
  {| adv_match_id := Some match_id_counter;
     home_xg := wm_home_xg r;
     away_xg := wm_away_xg r;
     home_possession := wm_home_possession r;
     away_possession := wm_away_possession r;
     home_passes_completed := wm_home_passes_completed r;
     home_passes_attempted := wm_home_passes_attempted r;
     away_passes_completed := wm_away_passes_completed r;
     away_passes_attempted := wm_away_passes_attempted r;
     home_tackles := wm_home_tackles r;
     away_tackles := wm_away_tackles r;
     home_interceptions := wm_home_interceptions r;
     away_interceptions := wm_away_interceptions r;
     home_clearances := wm_home_clearances r;
     away_clearances := wm_away_clearances r;
     home_saves := wm_home_saves r;
     away_saves := wm_away_saves r |}.

(** Loop state of [split_matches]. *)
Record split_state : Type := {
  all_base_matches : list MatchBase;
  all_advanced_stats : list MatchStatsAdvanced;
  match_id_counter : Z
}.

Definition split_league_step (st : split_state) (row : NormLeagueMatch) : split_state :=
  {| all_base_matches :=
       all_base_matches st ++ [league_base_match (match_id_counter st) row];
     all_advanced_stats := all_advanced_stats st;
     match_id_counter := match_id_counter st + 1 |}.

Definition split_wc_step (st : split_state) (row : NormWCMatch) : split_state :=
  {| all_base_matches :=
       all_base_matches st ++ [wc_base_match (match_id_counter st) row];
     all_advanced_stats :=
       all_advanced_stats st ++ [wc_advanced_stats (match_id_counter st) row];
     match_id_counter := match_id_counter st + 1 |}.

Definition split_init : split_state :=
  {| all_base_matches := []; all_advanced_stats := []; match_id_counter := 1 |}.

(** [split_matches] returns [(matches_base_df, match_stats_advanced_df)]. *)
Definition split_matches
    (league : option (list NormLeagueMatch)) (wc : option (list NormWCMatch))
    : list MatchBase * list MatchStatsAdvanced :=
  let st := split_init in
  let st := match league with
            | Some df => foldl split_league_step st df
            | None => st
            end in
  let st := match wc with
            | Some df => foldl split_wc_step st df
            | None => st
            end in
  (all_base_matches st, all_advanced_stats st).

(** [db_match_stats_advanced.csv] is written only when there is at least
    one advanced row. *)
Definition advanced_file (adv : list MatchStatsAdvanced)
    : option (list MatchStatsAdvanced) :=
  if bool_decide (0 < length adv)%nat then Some adv else None.

(** ** Metrics deriver: [derive_metrics.py] *)

(** The lambda [(num / den) if pd.notna(den) and den > 0 else None], and
    its variant multiplied by 100.  A NaN numerator gives a NaN result. *)
Definition ratio_if_positive (num den : cell Z) : cell Q :=
  match den with
  | Some d =>
      if bool_decide (0 < d) then
        match num with Some n => Some (ratio n d) | None => None end
      else None
  | None => None
  end.

Definition pct_if_positive (num den : cell Z) : cell Q :=
  match den with
  | Some d =>
      if bool_decide (0 < d) then
        match num with Some n => Some (pct n d) | None => None end
      else None
  | None => None
  end.

(** A row of [db_matches_base_enhanced.csv]: the base columns, unchanged,
    followed by the derived ones. *)
Record MatchBaseEnhanced : Type := {
  mbe_row : MatchBase;
  goal_difference : cell Z;
  total_goals : cell Z;
  total_cards : cell Z;
  home_shot_accuracy : cell Q;
  away_shot_accuracy : cell Q;
  result : cell string
}.

(** ['H' if home_goals > away_goals else ('A' if away_goals > home_goals
    else 'D')]. *)
Definition match_result (row : MatchBase) : string :=
  if zgt (home_goals row) (away_goals row) then "H"
  else if zgt (away_goals row) (home_goals row) then "A"
  else "D".

Definition derive_match_row (row : MatchBase) : MatchBaseEnhanced :=
  {| mbe_row := row;
     goal_difference := zsub (home_goals row) (away_goals row);
     total_goals := zadd (home_goals row) (away_goals row);
     total_cards :=
       Some (fillna0 (home_yellow row) + fillna0 (away_yellow row)
             + fillna0 (home_red row) + fillna0 (away_red row));
     home_shot_accuracy := pct_if_positive (home_sot row) (home_shots row);
     away_shot_accuracy := pct_if_positive (away_sot row) (away_shots row);
     result := Some (match_result row) |}.

(** A row of [db_match_stats_advanced_enhanced.csv]. *)
Record MatchStatsAdvancedEnhanced : Type := {
  mae_row : MatchStatsAdvanced;
  home_pass_accuracy : cell Q;
  away_pass_accuracy : cell Q;
  possession_delta : cell Q;
  xg_difference : cell Q
}.

Definition derive_advanced_row (row : MatchStatsAdvanced)
    : MatchStatsAdvancedEnhanced :=
  {| mae_row := row;
     home_pass_accuracy :=
       pct_if_positive (home_passes_completed row) (home_passes_attempted row);
     away_pass_accuracy :=
       pct_if_positive (away_passes_completed row) (away_passes_attempted row);
     possession_delta := qsub (home_possession row) (away_possession row);
     xg_difference := qsub (home_xg row) (away_xg row) |}.

(** [derive_match_metrics]: [None] when [db_matches_base.csv] is missing;
    the advanced table is enhanced only when its file exists. *)
Definition derive_match_metrics
    (base : option (list MatchBase)) (adv : option (list MatchStatsAdvanced))
    : option (list MatchBaseEnhanced * option (list MatchStatsAdvancedEnhanced)) :=
  match base with
  | None => None
  | Some df =>
      Some (map derive_match_row df, fmap (map derive_advanced_row) adv)
  end.

(** A row of [db_players_stats_enhanced.csv]. *)
Record PlayerStatsEnhanced : Type := {
  pse_row : NormPlayerRow;
  goals_per_game : cell Q;
  assists_per_game : cell Q;
  shot_efficiency : cell Q;
  sot_percentage : cell Q;
  goal_contributions : cell Z;
  contributions_per_game : cell Q
}.

Definition derive_player_row (row : NormPlayerRow) : PlayerStatsEnhanced :=
  let r := np_row row in
  let contributions := fillna0 (pr_goals r) + fillna0 (pr_assists r) in
  {| pse_row := row;
     goals_per_game := ratio_if_positive (pr_goals r) (pr_games r);
     assists_per_game := ratio_if_positive (pr_assists r) (pr_games r);
     shot_efficiency := pct_if_positive (pr_goals r) (pr_shots r);
     sot_percentage := pct_if_positive (pr_shots_on_target r) (pr_shots r);
     goal_contributions := Some contributions;
     contributions_per_game :=
       ratio_if_positive (Some contributions) (pr_games r) |}.

Definition derive_player_metrics (players : option (list NormPlayerRow))
    : option (list PlayerStatsEnhanced) :=
  fmap (map derive_player_row) players.

(** A row of [clean_wc_standings.csv] (its [FINAL_COLUMNS]). *)
Record Standing : Type := {
  group : cell string;
  rank : cell Z;
  team : cell string;
  played : cell Z;
  wins : cell Z;
  draws : cell Z;
  losses : cell Z;
  goals_for : cell Z;
  goals_against : cell Z;
  st_goal_difference : cell Z;
  points : cell Z
}.

(** A row of [db_standings_enhanced.csv]. *)
Record StandingEnhanced : Type := {
  se_row : Standing;
  win_percentage : cell Q;
  points_per_game : cell Q;
  st_goals_per_game : cell Q;
  clean_sheets : cell Z
}.

Definition derive_standing_row (row : Standing) : StandingEnhanced :=
  {| se_row := row;
     win_percentage := pct_if_positive (wins row) (played row);
     points_per_game := ratio_if_positive (points row) (played row);
     st_goals_per_game := ratio_if_positive (goals_for row) (played row);
     clean_sheets := zsub (played row) (losses row) |}.

Definition derive_standings_metrics (standings : option (list Standing))
    : option (list StandingEnhanced) :=
  fmap (map derive_standing_row) standings.

(** ** Validator: [validate_data.py] *)

(** The invariant named by each [raise ValidationError(...)]. *)
Inductive violation : Type :=
  | MissingFile (path : string)
  (* validate_reference_tables *)
  | NullTeamId
  | DuplicateTeamIds
  | UnexpectedTeamCount (n : nat)
  | InvalidCompetitionType
  | NullPlayerId
  | NullPlayerTeamId
  | DuplicatePlayerIds
  | PlayersUnknownTeamIds (ids : list (cell Z))
  | UnexpectedPlayerCount (n : nat)
  | InvalidAgeRange (lo hi : Z)
  (* validate_matches_base *)
  | NullMatchId
  | DuplicateMatchIds
  | UnexpectedMatchCount (n : nat)
  | NullHomeTeamId
  | NullAwayTeamId
  | UnknownHomeTeamIds (ids : list (cell Z))
  | UnknownAwayTeamIds (ids : list (cell Z))
  | SelfMatches (n : nat)
  | NegativeHomeGoals
  | NegativeAwayGoals
  | NegativeHomeShots
  | HomeSotExceedsShots (n : nat)
  | AwaySotExceedsShots (n : nat)
  | HomeShotAccuracyOver100 (n : nat)
  | InvalidDateFormat
  | InvalidResultValues
  (* validate_match_stats_advanced *)
  | UnexpectedAdvancedCount (n : nat)
  | AdvancedUnknownMatchIds (ids : list (cell Z))
  | HomePossessionOver100 (n : nat)
  | AwayPossessionOver100 (n : nat)
  | PossessionSumNot100 (n : nat)
  | NegativeHomeXg
  | NegativeAwayXg
  | HomePassesCompletedExceedAttempted (n : nat)
  | HomePassAccuracyOver100 (n : nat)
  (* validate_players_stats *)
  | StatsUnknownPlayerIds (ids : list (cell Z))
  | UnexpectedPlayerStatsCount (n : nat)
  | NegativeValues (col : string)
  | ShotsOnTargetExceedShots (n : nat)
  | PassesCompletedExceedPasses (n : nat)
  | GoalsExceedShots (n : nat)
  | PassesPctOver100 (n : nat)
  | ShotEfficiencyOver100 (n : nat)
  (* validate_standings *)
  | UnexpectedStandingsCount (n : nat)
  | WinsDrawsLossesMismatch (n : nat)
  | IncorrectPoints (n : nat)
  | WinsExceedPlayed
  | DrawsExceedPlayed
  | LossesExceedPlayed
  | DuplicateRanks (g : cell string)
  | WinPercentageOver100 (n : nat).

(** What a check can raise: the module's [ValidationError], or the
    [FileNotFoundError] of an unguarded [pd.read_csv]. *)
Inductive exn : Type :=
  | ValidationError (v : violation)
  | FileNotFoundError (path : string).

(** A check either passes silently or raises. *)
Inductive verdict : Type :=
  | Passed
  | Raised (e : exn).

(** [if cond: raise ValidationError(v)], followed by the rest. *)
Definition raise_if (cond : bool) (v : violation) (rest : verdict) : verdict :=
  if cond then Raised (ValidationError v) else rest.

Notation "'raise_when' cond 'throws' v ;; rest" :=
  (raise_if cond v rest)
  (at level 10, cond at level 9, v at level 9, rest at level 200,
   format "'[v' 'raise_when'  cond  'throws'  v  ;;  '/' rest ']'").

(** Sequencing of two validation groups: the first raise aborts. *)
Definition and_then (v : verdict) (rest : verdict) : verdict :=
  match v with Passed => rest | Raised e => Raised e end.

(** [Series.duplicated().any()]. *)
Definition has_duplicates (ids : list (cell Z)) : bool :=
  negb (bool_decide (NoDup ids)).

(** [set(child) - set(parent)]: a NaN is never equal to a member of
    another set, so it always stays in the difference. *)
Definition set_difference (child parent : list (cell Z)) : list (cell Z) :=
  filter (λ i, i = None ∨ i ∉ parent) child.

(** [Series.unique()]: distinct values in order of first appearance. *)
Fixpoint unique {A} `{EqDecision A} (l : list A) : list A :=
  match l with
  | [] => []
  | x :: l' => x :: filter (λ y, y ≠ x) (unique l')
  end.

(** [len(df[mask])]. *)
Definition count_rows {A} (mask : A → bool) (df : list A) : nat :=
  length (filter (λ r, mask r = true) df).

Definition nonempty {A} (l : list A) : bool :=
  match l with [] => false | _ => true end.

(** [Series.min()] / [Series.max()] of a non-empty integer column. *)
Definition series_min (x : Z) (rest : list Z) : Z := foldl Z.min x rest.
Definition series_max (x : Z) (rest : list Z) : Z := foldl Z.max x rest.

Definition teams_file : string := "ref_teams.csv".
Definition players_file : string := "ref_players.csv".
Definition matches_file : string := "db_matches_base_enhanced.csv".
Definition adv_file : string := "db_match_stats_advanced_enhanced.csv".
Definition players_stats_file : string := "db_players_stats_enhanced.csv".
Definition standings_file : string := "db_standings_enhanced.csv".

(** The team checks of [validate_reference_tables].  The required-column
    checks cannot fail on tables of these row types and are omitted. *)
Definition validate_teams (teams_df : list Team) (rest : verdict) : verdict :=
  raise_when (existsb (λ t, isnull (team_id t)) teams_df) throws NullTeamId ;;
  raise_when (has_duplicates (map team_id teams_df)) throws DuplicateTeamIds ;;
  raise_when (bool_decide (length teams_df < 100)%nat
         || bool_decide (150 < length teams_df)%nat)
    throws (UnexpectedTeamCount (length teams_df)) ;;
  raise_when (existsb (λ t, negb (bool_decide
                   (competition_type t ∈ ["league"; "international"])))
                 teams_df)
    throws InvalidCompetitionType ;;
  rest.

(** The age-range check: [age_col = players_df['age'].dropna()]. *)
Definition validate_ages (players_df : list Player) (rest : verdict) : verdict :=
  match omap age players_df with
  | [] => rest
  | a :: ages =>
      raise_when (bool_decide (series_min a ages < 15)
             || bool_decide (45 < series_max a ages))
        throws (InvalidAgeRange (series_min a ages) (series_max a ages)) ;;
      rest
  end.

Definition validate_players (teams_df : list Team) (players_df : list Player)
    (rest : verdict) : verdict :=
  raise_when (existsb (λ p, isnull (player_id p)) players_df) throws NullPlayerId ;;
  raise_when (existsb (λ p, isnull (p_team_id p)) players_df)
    throws NullPlayerTeamId ;;
  raise_when (has_duplicates (map player_id players_df)) throws DuplicatePlayerIds ;;
  let invalid_team_ids :=
    set_difference (map p_team_id players_df) (map team_id teams_df) in
  raise_when (nonempty invalid_team_ids)
    throws (PlayersUnknownTeamIds invalid_team_ids) ;;
  raise_when (bool_decide (length players_df < 600)%nat
         || bool_decide (800 < length players_df)%nat)
    throws (UnexpectedPlayerCount (length players_df)) ;;
  validate_ages players_df rest.

Definition validate_reference_tables
    (teams : option (list Team)) (players : option (list Player)) : verdict :=
  match teams with
  | None => Raised (ValidationError (MissingFile teams_file))
  | Some teams_df =>
      match players with
      | None => Raised (ValidationError (MissingFile players_file))
      | Some players_df =>
          validate_teams teams_df (validate_players teams_df players_df Passed)
      end
  end.

(** [(df[col].dropna() < 0).any()] for each listed column, in order: the
    first column with a negative value is the one reported. *)
Fixpoint first_negative {A} (cols : list (string * (A → cell Z)))
    (df : list A) : option string :=
  match cols with
  | [] => None
  | (col, f) :: cols' =>
      if existsb (λ r, zlt (f r) (Some 0)) df then Some col
      else first_negative cols' df
  end.

Definition raise_if_negative {A} (cols : list (string * (A → cell Z)))
    (df : list A) (rest : verdict) : verdict :=
  match first_negative cols df with
  | Some col => Raised (ValidationError (NegativeValues col))
  | None => rest
  end.

(** [adv_df[['home_possession', 'away_possession']].sum(axis=1)]: the row
    sum skips NaN, i.e. a missing value counts as 0. *)
Definition possession_sum (row : MatchStatsAdvanced) : Q :=
  (default 0 (home_possession row) + default 0 (away_possession row))%Q.

(** [(possession_sum < 98) | (possession_sum > 102)]. *)
Definition possession_sum_invalid (row : MatchStatsAdvanced) : bool :=
  negb (Qle_bool 98 (possession_sum row))
  || negb (Qle_bool (possession_sum row) 102).

(** The possession block of [validate_match_stats_advanced]. *)
Definition validate_possession (adv_df : list MatchStatsAdvancedEnhanced)
    (rest : verdict) : verdict :=
  let n_home :=
    count_rows (λ r, qgt (home_possession (mae_row r)) (Some 100%Q)) adv_df in
  raise_when (bool_decide (0 < n_home)%nat) throws (HomePossessionOver100 n_home) ;;
  let n_away :=
    count_rows (λ r, qgt (away_possession (mae_row r)) (Some 100%Q)) adv_df in
  raise_when (bool_decide (0 < n_away)%nat) throws (AwayPossessionOver100 n_away) ;;
  let n_sum := count_rows (λ r, possession_sum_invalid (mae_row r)) adv_df in
  raise_when (bool_decide (0 < n_sum)%nat) throws (PossessionSumNot100 n_sum) ;;
  rest.

Definition validate_match_stats_advanced
    (adv : option (list MatchStatsAdvancedEnhanced))
    (base : option (list MatchBaseEnhanced)) : verdict :=
  match adv with
  | None => Raised (ValidationError (MissingFile adv_file))
  | Some adv_df =>
      match base with
      | None => Raised (FileNotFoundError matches_file)
      | Some base_df =>
          let valid_match_ids := map (λ r, match_id (mbe_row r)) base_df in
          raise_when (negb (bool_decide (length adv_df = 64%nat)))
            throws (UnexpectedAdvancedCount (length adv_df)) ;;
          let invalid_ids :=
            set_difference (map (λ r, adv_match_id (mae_row r)) adv_df)
                           valid_match_ids in
          raise_when (nonempty invalid_ids)
            throws (AdvancedUnknownMatchIds invalid_ids) ;;
          validate_possession adv_df (
          raise_when (existsb (λ r, qlt (home_xg (mae_row r)) (Some 0%Q)) adv_df)
            throws NegativeHomeXg ;;
          raise_when (existsb (λ r, qlt (away_xg (mae_row r)) (Some 0%Q)) adv_df)
            throws NegativeAwayXg ;;
          let n_passes :=
            count_rows (λ r, zgt (home_passes_completed (mae_row r))
                                 (home_passes_attempted (mae_row r))) adv_df in
          raise_when (bool_decide (0 < n_passes)%nat)
            throws (HomePassesCompletedExceedAttempted n_passes) ;;
          let n_acc :=
            count_rows (λ r, qgt (home_pass_accuracy r) (Some 100%Q)) adv_df in
          raise_when (bool_decide (0 < n_acc)%nat)
            throws (HomePassAccuracyOver100 n_acc) ;;
          Passed)
      end
  end.

Definition validate_players_stats
    (stats : option (list PlayerStatsEnhanced))
    (ref_players : option (list Player)) : verdict :=
  match stats with
  | None => Raised (ValidationError (MissingFile players_stats_file))
  | Some df =>
      match ref_players with
      | None => Raised (FileNotFoundError players_file)
      | Some ref_df =>
          let stat := λ (f : PlayerRow → cell Z) (r : PlayerStatsEnhanced),
                        f (np_row (pse_row r)) in
          let invalid_ids :=
            set_difference (map (λ r, np_player_id (pse_row r)) df)
                           (map player_id ref_df) in
          raise_when (nonempty invalid_ids)
            throws (StatsUnknownPlayerIds (take 5 invalid_ids)) ;;
          raise_when (bool_decide (length df < 600)%nat
                      || bool_decide (800 < length df)%nat)
            throws (UnexpectedPlayerStatsCount (length df)) ;;
          raise_if_negative
            [ ("goals", stat pr_goals); ("assists", stat pr_assists);
              ("shots", stat pr_shots);
              ("shots_on_target", stat pr_shots_on_target);
              ("minutes", stat pr_minutes); ("games", stat pr_games) ] df (
          let n_sot :=
            count_rows (λ r, zgt (stat pr_shots_on_target r) (stat pr_shots r)) df in
          raise_when (bool_decide (0 < n_sot)%nat)
            throws (ShotsOnTargetExceedShots n_sot) ;;
          let n_passes :=
            count_rows (λ r, zgt (stat pr_passes_completed r) (stat pr_passes r)) df in
          raise_when (bool_decide (0 < n_passes)%nat)
            throws (PassesCompletedExceedPasses n_passes) ;;
          let n_goals :=
            count_rows (λ r, zgt (stat pr_goals r) (stat pr_shots r)) df in
          raise_when (bool_decide (0 < n_goals)%nat)
            throws (GoalsExceedShots n_goals) ;;
          let n_pct :=
            count_rows (λ r, qgt (pr_passes_pct (np_row (pse_row r)))
                                 (Some 100%Q)) df in
          raise_when (bool_decide (0 < n_pct)%nat) throws (PassesPctOver100 n_pct) ;;
          let n_eff :=
            count_rows (λ r, qgt (shot_efficiency r) (Some 100%Q)) df in
          raise_when (bool_decide (0 < n_eff)%nat)
            throws (ShotEfficiencyOver100 n_eff) ;;
          Passed)
      end
  end.

(** [df[df['group'] == group]]; a NaN group equals nothing. *)
Definition group_rows (g : cell string) (df : list StandingEnhanced)
    : list StandingEnhanced :=
  filter (λ r, is_Some g ∧ group (se_row r) = g) df.

(** The loop [for group in df['group'].unique()]: the first group whose
    ranks are not pairwise distinct. *)
Definition first_duplicate_rank_group (df : list StandingEnhanced)
    : option (cell string) :=
  List.find
    (λ g, negb (bool_decide
       (length (unique (map (λ r, rank (se_row r)) (group_rows g df)))
        = length (group_rows g df))))
    (unique (map (λ r, group (se_row r)) df)).

(** [wins + draws + losses != played] and [points != wins * 3 + draws]. *)
Definition played_mismatch (row : Standing) : bool :=
  zne (zadd (zadd (wins row) (draws row)) (losses row)) (played row).

Definition points_mismatch (row : Standing) : bool :=
  zne (points row) (zadd (zmul (wins row) (Some 3)) (draws row)).

(** The checks of [validate_standings] that follow the two arithmetic
    ones: signs, bounds by [played], rank uniqueness, win percentage. *)
Definition standings_other_checks (df : list StandingEnhanced) : verdict :=
  let col := λ (f : Standing → cell Z) (r : StandingEnhanced), f (se_row r) in
  raise_if_negative
    [ ("played", col played); ("wins", col wins); ("draws", col draws);
      ("losses", col losses); ("goals_for", col goals_for);
      ("goals_against", col goals_against); ("points", col points) ] df (
  raise_when (existsb (λ r, zgt (col wins r) (col played r)) df)
    throws WinsExceedPlayed ;;
  raise_when (existsb (λ r, zgt (col draws r) (col played r)) df)
    throws DrawsExceedPlayed ;;
  raise_when (existsb (λ r, zgt (col losses r) (col played r)) df)
    throws LossesExceedPlayed ;;
  match first_duplicate_rank_group df with
  | Some g => Raised (ValidationError (DuplicateRanks g))
  | None =>
      let n_win :=
        count_rows (λ r, qgt (win_percentage r) (Some 100%Q)) df in
      raise_when (bool_decide (0 < n_win)%nat)
        throws (WinPercentageOver100 n_win) ;;
      Passed
  end).

Definition validate_standings (standings : option (list StandingEnhanced))
    : verdict :=
  match standings with
  | None => Raised (ValidationError (MissingFile standings_file))
  | Some df =>
      raise_when (negb (bool_decide (length df = 32%nat)))
        throws (UnexpectedStandingsCount (length df)) ;;
      let n_played := count_rows (λ r, played_mismatch (se_row r)) df in
      raise_when (bool_decide (0 < n_played)%nat)
        throws (WinsDrawsLossesMismatch n_played) ;;
      let n_points := count_rows (λ r, points_mismatch (se_row r)) df in
      raise_when (bool_decide (0 < n_points)%nat)
        throws (IncorrectPoints n_points) ;;
      standings_other_checks df
  end.

Section Validator.

(** [pd.to_datetime(df['date'], errors='raise')] is library code: whether
    parsing the date column raises is kept abstract. *)
Variable to_datetime_raises : list (cell string) → bool.

Definition validate_matches_base
    (matches : option (list MatchBaseEnhanced)) (teams : option (list Team))
    : verdict :=
  match matches with
  | None => Raised (ValidationError (MissingFile matches_file))
  | Some df =>
      match teams with
      | None => Raised (FileNotFoundError teams_file)
      | Some teams_df =>
          let col := λ {B} (f : MatchBase → B) (r : MatchBaseEnhanced),
                       f (mbe_row r) in
          let valid_team_ids := map team_id teams_df in
          raise_when (existsb (λ r, isnull (col match_id r)) df)
            throws NullMatchId ;;
          raise_when (has_duplicates (map (col match_id) df))
            throws DuplicateMatchIds ;;
          raise_when (bool_decide (length df < 1800)%nat
                      || bool_decide (2000 < length df)%nat)
            throws (UnexpectedMatchCount (length df)) ;;
          raise_when (existsb (λ r, isnull (col home_team_id r)) df)
            throws NullHomeTeamId ;;
          raise_when (existsb (λ r, isnull (col away_team_id r)) df)
            throws NullAwayTeamId ;;
          let invalid_home :=
            set_difference (map (col home_team_id) df) valid_team_ids in
          raise_when (nonempty invalid_home)
            throws (UnknownHomeTeamIds invalid_home) ;;
          let invalid_away :=
            set_difference (map (col away_team_id) df) valid_team_ids in
          raise_when (nonempty invalid_away)
            throws (UnknownAwayTeamIds invalid_away) ;;
          let self_matches :=
            count_rows (λ r, zeq (col home_team_id r) (col away_team_id r)) df in
          raise_when (bool_decide (0 < self_matches)%nat)
            throws (SelfMatches self_matches) ;;
          raise_when (existsb (λ r, zlt (col home_goals r) (Some 0)) df)
            throws NegativeHomeGoals ;;
          raise_when (existsb (λ r, zlt (col away_goals r) (Some 0)) df)
            throws NegativeAwayGoals ;;
          raise_when (existsb (λ r, zlt (col home_shots r) (Some 0)) df)
            throws NegativeHomeShots ;;
          let n_home :=
            count_rows (λ r, zgt (col home_sot r) (col home_shots r)) df in
          raise_when (bool_decide (0 < n_home)%nat)
            throws (HomeSotExceedsShots n_home) ;;
          let n_away :=
            count_rows (λ r, zgt (col away_sot r) (col away_shots r)) df in
          raise_when (bool_decide (0 < n_away)%nat)
            throws (AwaySotExceedsShots n_away) ;;
          let n_acc :=
            count_rows (λ r, qgt (home_shot_accuracy r) (Some 100%Q)) df in
          raise_when (bool_decide (0 < n_acc)%nat)
            throws (HomeShotAccuracyOver100 n_acc) ;;
          raise_when (to_datetime_raises (map (col date) df))
            throws InvalidDateFormat ;;
          raise_when (existsb (λ r,
                        match result r with
                        | Some v => negb (bool_decide (v ∈ ["H"; "A"; "D"]))
                        | None => false
                        end) df)
            throws InvalidResultValues ;;
          Passed
      end
  end.

(** The six files the validator reads from [data/clean]. *)
Record Outputs : Type := {
  ref_teams : option (list Team);
  ref_players : option (list Player);
  db_matches_base_enhanced : option (list MatchBaseEnhanced);
  db_match_stats_advanced_enhanced : option (list MatchStatsAdvancedEnhanced);
  db_players_stats_enhanced : option (list PlayerStatsEnhanced);
  db_standings_enhanced : option (list StandingEnhanced)
}.

(** [validate_all]: the five groups in order; the first raise is
    re-raised and the remaining groups are not run. *)
Definition validate_all (out : Outputs) : verdict :=
  and_then (validate_reference_tables (ref_teams out) (ref_players out)) (
  and_then (validate_matches_base (db_matches_base_enhanced out) (ref_teams out)) (
  and_then (validate_match_stats_advanced
              (db_match_stats_advanced_enhanced out)
              (db_matches_base_enhanced out)) (
  and_then (validate_players_stats (db_players_stats_enhanced out)
                                   (ref_players out)) (
  validate_standings (db_standings_enhanced out))))).

(** Steps 5 to 8 of [run_pipeline], from the four cleaned tables to the
    six output tables; every stage reads the files its predecessors
    wrote. *)
Definition run_stages
    (league : option (list LeagueMatch)) (wc : option (list WCMatch))
    (standings : option (list Standing)) (players : option (list PlayerRow))
    : Outputs :=
  let teams := Some (create_teams_table league wc) in
  let refp := create_players_table teams players in
  let '(norm_league, norm_wc) := normalize_matches teams league wc in
  let norm_players := normalize_players teams refp players in
  let '(base, adv) := split_matches norm_league norm_wc in
  let enhanced := derive_match_metrics (Some base) (advanced_file adv) in
  {| ref_teams := teams;
     ref_players := refp;
     db_matches_base_enhanced := fmap fst enhanced;
     db_match_stats_advanced_enhanced := enhanced ≫= snd;
     db_players_stats_enhanced := derive_player_metrics norm_players;
     db_standings_enhanced := derive_standings_metrics standings |}.

(** Step 9 on the outcome of steps 5 to 8. *)
Definition run_pipeline
    (league : option (list LeagueMatch)) (wc : option (list WCMatch))
    (standings : option (list Standing)) (players : option (list PlayerRow))
    : verdict :=
  validate_all (run_stages league wc standings players).

End Validator.

(** ** Fixtures and row predicates used in the statements below *)

(** The three per-row conditions of the possession block: neither value
    above 100 and the row sum inside the band. *)
Definition possession_row_ok (row : MatchStatsAdvanced) : bool :=
  negb (qgt (home_possession row) (Some 100%Q))
  && negb (qgt (away_possession row) (Some 100%Q))
  && negb (possession_sum_invalid row).

(** An advanced-stats row that carries only a match id and a possession
    pair, and a base row that carries only ids and a score. *)
Definition possession_row (k : Z) (home away : cell Q) : MatchStatsAdvanced :=
  {| adv_match_id := Some k; home_xg := None; away_xg := None;
     home_possession := home; away_possession := away;
     home_passes_completed := None; home_passes_attempted := None;
     away_passes_completed := None; away_passes_attempted := None;
     home_tackles := None; away_tackles := None;
     home_interceptions := None; away_interceptions := None;
     home_clearances := None; away_clearances := None;
     home_saves := None; away_saves := None |}.

Definition score_row (k home away : Z) (hg ag : cell Z) : MatchBase :=
  {| match_id := Some k; competition_name := "World Cup";
     season := Some "2022"; date := Some "2022-11-20"; time := None;
     home_team_id := Some home; away_team_id := Some away;
     home_goals := hg; away_goals := ag;
     home_shots := None; away_shots := None; home_sot := None; away_sot := None;
     home_fouls := None; away_fouls := None;
     home_corners := None; away_corners := None;
     home_yellow := None; away_yellow := None;
     home_red := None; away_red := None;
     venue := None; referee := None |}.

(** Sixty-four World-Cup matches, ids 1 to 64, and their advanced rows
    all carrying one given possession pair. *)
Definition sixty_four_matches : list MatchBaseEnhanced :=
  map (λ k, derive_match_row (score_row k 1 2 (Some 1) (Some 0))) (seqZ 1 64).

Definition sixty_four_possessions (home away : cell Q)
    : list MatchStatsAdvancedEnhanced :=
  map (λ k, derive_advanced_row (possession_row k home away)) (seqZ 1 64).

(** A league fixture row that carries only the two names and the score. *)
Definition fixture (home away : string) (hg ag : cell Z) : LeagueMatch :=
  {| lm_date := "2022-08-06"; lm_time := None;
     lm_competition_name := "Premier League"; lm_season := Some "2022-23";
     lm_home_team := home; lm_away_team := away;
     lm_home_goals := hg; lm_away_goals := ag;
     lm_home_shots := None; lm_away_shots := None;
     lm_home_sot := None; lm_away_sot := None;
     lm_home_fouls := None; lm_away_fouls := None;
     lm_home_corners := None; lm_away_corners := None;
     lm_home_yellow := None; lm_away_yellow := None;
     lm_home_red := None; lm_away_red := None; lm_referee := None |}.

(** A World-Cup row that carries only the two names and the score. *)
Definition wc_fixture (home away : string) (hg ag : cell Z) : WCMatch :=
  {| wm_date := Some "2022-11-20"; wm_time := None;
     wm_competition_name := "World Cup"; wm_season := Some "2022";
     wm_home_team := home; wm_away_team := away;
     wm_home_goals := hg; wm_away_goals := ag;
     wm_home_xg := None; wm_away_xg := None;
     wm_home_possession := None; wm_away_possession := None;
     wm_home_shots := None; wm_away_shots := None;
     wm_home_sot := None; wm_away_sot := None;
     wm_home_passes_completed := None; wm_home_passes_attempted := None;
     wm_away_passes_completed := None; wm_away_passes_attempted := None;
     wm_home_tackles := None; wm_away_tackles := None;
     wm_home_interceptions := None; wm_away_interceptions := None;
     wm_home_clearances := None; wm_away_clearances := None;
     wm_home_saves := None; wm_away_saves := None; wm_venue := None |}.


(** The two arithmetic identities of a standings row, all five cells
    being present. *)
Definition standing_arithmetic (row : Standing) : Prop :=
  ∃ w d l p pts : Z,
    wins row = Some w ∧ draws row = Some d ∧ losses row = Some l
    ∧ played row = Some p ∧ points row = Some pts
    ∧ (w + d + l = p)%Z ∧ (pts = w * 3 + d)%Z.

(** Small sample tables. *)
Definition sample_league : list LeagueMatch :=
  [ fixture "Team A" "Team B" (Some 1) (Some 0);
    fixture "Team A" "Team B" (Some 2) (Some 2);
    fixture "Team A" "Team C" (Some 0) (Some 3) ].

Definition sample_wc : list WCMatch :=
  [ wc_fixture "Qatar" "Ecuador" (Some 0) (Some 2);
    wc_fixture "Team A" "Qatar" (Some 1) (Some 1) ].

Definition player_fixture (name : string) (team_name : cell string)
    (games goals shots : cell Z) : PlayerRow :=
  {| pr_player := name; pr_team := team_name; pr_position := None;
     pr_age := Some 25; pr_minutes := None; pr_games := games;
     pr_goals := goals; pr_assists := None; pr_shots := shots;
     pr_shots_on_target := None; pr_passes_completed := None;
     pr_passes := None; pr_passes_pct := None; pr_tackles := None;
     pr_interceptions := None; pr_clearances := None; pr_touches := None;
     pr_dispossessed := None; pr_xg := None; pr_xg_assist := None |}.

Definition sample_players : list PlayerRow :=
  [ player_fixture "Striker" (Some "Qatar") (Some 3) (Some 2) (Some 5);
    player_fixture "Keeper" (Some "Atlantis") (Some 3) (Some 0) (Some 0) ].

(** Eight groups of four teams, each with one win, one draw, one loss. *)
Definition sample_standings : list StandingEnhanced :=
  concat (map (λ g,
    map (λ k, derive_standing_row
      {| group := Some g; rank := Some k; team := None;
         played := Some 3; wins := Some 1; draws := Some 1; losses := Some 1;
         goals_for := Some 4; goals_against := Some 4;
         st_goal_difference := Some 0; points := Some 4 |})
      [1; 2; 3; 4])
    ["A"; "B"; "C"; "D"; "E"; "F"; "G"; "H"]).

(** ** Failure classes used in the statements on whole pipeline runs *)


(** The failures of [validate_match_stats_advanced] that depend on the
    World-Cup data itself. *)
Definition advanced_data_violation (v : violation) : Prop :=
  match v with
  | UnexpectedAdvancedCount _ | HomePossessionOver100 _
  | AwayPossessionOver100 _ | PossessionSumNot100 _ | NegativeHomeXg
  | NegativeAwayXg | HomePassesCompletedExceedAttempted _ => True
  | _ => False
  end.



(** The base and advanced tables the stages build from two cleaned match
    tables: Teams, then the normaliser, then the splitter. *)
Definition built_teams (league : list LeagueMatch) (wc : list WCMatch)
    : list Team :=
  create_teams_table (Some league) (Some wc).

Definition built_split (league : list LeagueMatch) (wc : list WCMatch)
    : list MatchBase * list MatchStatsAdvanced :=
  let norm := normalize_matches (Some (built_teams league wc))
                (Some league) (Some wc) in
  split_matches norm.1 norm.2.

(** ** Row conditions and a corpus of the expected size *)

(** The per-row conditions of [validate_matches_base], gathered: ids
    present and known, no self-match, nothing negative, shots on target
    within shots, shot accuracy and result in range.  A null value passes
    every comparison. *)
Definition match_row_checks (valid_team_ids : list (cell Z))
    (r : MatchBaseEnhanced) : bool :=
  let b := mbe_row r in
  notna (match_id b) && notna (home_team_id b) && notna (away_team_id b)
  && bool_decide (home_team_id b ∈ valid_team_ids)
  && bool_decide (away_team_id b ∈ valid_team_ids)
  && negb (zeq (home_team_id b) (away_team_id b))
  && negb (zlt (home_goals b) (Some 0))
  && negb (zlt (away_goals b) (Some 0))
  && negb (zlt (home_shots b) (Some 0))
  && negb (zgt (home_sot b) (home_shots b))
  && negb (zgt (away_sot b) (away_shots b))
  && negb (qgt (home_shot_accuracy r) (Some 100%Q))
  && match result r with
     | Some v => bool_decide (v ∈ ["H"; "A"; "D"])
     | None => true
     end.

(** The same conditions as a statement about the values: what has to be
    present, and what has to hold of the values that are present. *)
Definition match_row_valid (teams_df : list Team) (r : MatchBaseEnhanced)
    : Prop :=
  let b := mbe_row r in
  (∃ m h a : Z,
     match_id b = Some m ∧ home_team_id b = Some h ∧ away_team_id b = Some a
     ∧ h ≠ a
     ∧ (∃ t, t ∈ teams_df ∧ team_id t = Some h)
     ∧ (∃ t, t ∈ teams_df ∧ team_id t = Some a))
  ∧ (∀ g, home_goals b = Some g → (0 ≤ g)%Z)
  ∧ (∀ g, away_goals b = Some g → (0 ≤ g)%Z)
  ∧ (∀ n, home_shots b = Some n → (0 ≤ n)%Z)
  ∧ (∀ s n, home_sot b = Some s → home_shots b = Some n → (s ≤ n)%Z)
  ∧ (∀ s n, away_sot b = Some s → away_shots b = Some n → (s ≤ n)%Z)
  ∧ (∀ q, home_shot_accuracy r = Some q → (q <= 100)%Q)
  ∧ (∀ v, result r = Some v → v ∈ ["H"; "A"; "D"]).

(** A base row with its two goal values erased. *)
Definition without_goals (b : MatchBase) : MatchBase :=
  {| match_id := match_id b; competition_name := competition_name b;
     season := season b; date := date b; time := time b;
     home_team_id := home_team_id b; away_team_id := away_team_id b;
     home_goals := None; away_goals := None;
     home_shots := home_shots b; away_shots := away_shots b;
     home_sot := home_sot b; away_sot := away_sot b;
     home_fouls := home_fouls b; away_fouls := away_fouls b;
     home_corners := home_corners b; away_corners := away_corners b;
     home_yellow := home_yellow b; away_yellow := away_yellow b;
     home_red := home_red b; away_red := away_red b;
     venue := venue b; referee := referee b |}.

(** Output tables of the sizes the validator expects: 100 teams, 600
    players, 1800 matches of which the first 64 have advanced rows, and
    the eight groups of [sample_standings]. *)
Definition corpus_teams : list Team :=
  map (λ k, {| team_id := Some k; team_name := "Team";
               competition_type := "league"; country := None;
               primary_competition := "Premier League" |}) (seqZ 1 100).

Definition corpus_players : list Player :=
  map (λ k, {| player_id := Some k; player_name := "Player";
               p_team_id := Some 1; p_team_name := Some "Team";
               position := None; age := Some 25 |}) (seqZ 1 600).

Definition corpus_matches : list MatchBaseEnhanced :=
  map (λ k, derive_match_row (score_row k 1 2 (Some 1) (Some 0))) (seqZ 1 1800).

Definition corpus_stats : list PlayerStatsEnhanced :=
  map (λ k, derive_player_row
              {| np_player_id := Some k; np_team_id := Some 1;
                 np_row := player_fixture "Player" (Some "Team")
                             (Some 3) (Some 2) (Some 5) |}) (seqZ 1 600).

Definition corpus : Outputs :=
  {| ref_teams := Some corpus_teams;
     ref_players := Some corpus_players;
     db_matches_base_enhanced := Some corpus_matches;
     db_match_stats_advanced_enhanced :=
       Some (sixty_four_possessions (Some 61%Q) (Some 40.5%Q));
     db_players_stats_enhanced := Some corpus_stats;
     db_standings_enhanced := Some sample_standings |}.

(** * Properties *)

(** ** Lists *)

Lemma filter_all {A} (P : A → Prop) `{!∀ x, Decision (P x)} (l : list A) :
  Forall P l → filter P l = l.
Proof.
  induction 1 as [|x l Hx _ IH]; [done|].
  by rewrite filter_cons_True, IH.
Qed.

Lemma filter_none {A} (P : A → Prop) `{!∀ x, Decision (P x)} (l : list A) :
  Forall (λ x, ¬ P x) l → filter P l = [].
Proof.
  induction 1 as [|x l Hx _ IH]; [done|].
  by rewrite filter_cons_False.
Qed.

(** ** Reference table builder *)

Section TeamsTable.

Implicit Types (st : teams_state) (c d : Team) (cs : list Team).

Lemma league_loop_candidates st (df : list LeagueMatch) :
  foldl league_row_step st df = foldl add_candidate st (league_candidates df).
Proof.
  revert st. induction df as [|row df IH]; intros st; [done|].
  cbn [foldl league_candidates map concat app]. by rewrite IH.
Qed.

Lemma wc_loop_candidates st (df : list WCMatch) :
  foldl wc_row_step st df = foldl add_candidate st (wc_candidates df).
Proof.
  revert st. induction df as [|row df IH]; intros st; [done|].
  cbn [foldl wc_candidates map concat app]. by rewrite IH.
Qed.

(** Filtering on the name commutes with keeping first occurrences. *)
Lemma first_seen_filter (P : string → Prop) `{!∀ n, Decision (P n)} cs :
  filter (λ d, P (team_name d)) (first_seen cs)
  = first_seen (filter (λ d, P (team_name d)) cs).
Proof.
  induction cs as [|c cs IH]; [done|].
  cbn [first_seen]. rewrite !filter_cons.
  destruct (decide (P (team_name c))) as [Hc|Hc].
  - cbn [first_seen]. f_equal. rewrite <- IH.
    rewrite !list_filter_filter. apply list_filter_iff. tauto.
  - rewrite <- IH, list_filter_filter. apply list_filter_iff.
    intros d. split; [tauto|]. intros Hd. split; [done|]. congruence.
Qed.

Lemma add_candidate_fresh st c :
  team_name c ≠ "" → team_name c ∉ seen_teams st →
  add_candidate st c
  = {| teams_data := (teams_data st ++ [with_id (team_id_counter st) c])%list;
       team_id_counter := team_id_counter st + 1;
       seen_teams := {[ team_name c ]} ∪ seen_teams st |}.
Proof.
  intros H1 H2. unfold add_candidate, add_team, truthy.
  by rewrite (bool_decide_eq_true_2 _ H1), (bool_decide_eq_true_2 _ H2).
Qed.

Lemma add_candidate_skip st c :
  ¬ (team_name c ≠ "" ∧ team_name c ∉ seen_teams st) →
  add_candidate st c = st.
Proof.
  intros Hn. unfold add_candidate, add_team, truthy.
  do 2 case_bool_decide; cbn; tauto.
Qed.

(** The loop invariant, in closed form: from any state the loop appends
    the not-yet-seen, non-empty names in order of first appearance,
    numbered from the current counter. *)
Lemma teams_loop_closed cs : ∀ st,
  teams_data (foldl add_candidate st cs)
  = (teams_data st ++
      assign_ids (team_id_counter st)
        (first_seen (filter (λ d, team_name d ≠ "" ∧ team_name d ∉ seen_teams st) cs)))%list.
Proof.
  induction cs as [|c cs IH]; intros st.
  - cbn. by rewrite app_nil_r.
  - cbn [foldl]. rewrite IH, filter_cons.
    destruct (decide (team_name c ≠ "" ∧ team_name c ∉ seen_teams st)) as [[H1 H2]|Hn].
    + rewrite add_candidate_fresh by done.
      cbn [teams_data team_id_counter seen_teams first_seen assign_ids].
      rewrite <- app_assoc. cbn [app]. do 3 f_equal.
      pose proof (first_seen_filter (λ n, n ≠ team_name c)) as HH.
      cbn beta in HH. rewrite HH.
      f_equal. rewrite list_filter_filter. apply list_filter_iff.
      intros d. rewrite not_elem_of_union, not_elem_of_singleton. tauto.
    + by rewrite add_candidate_skip.
Qed.












(** A missing source file contributes no candidate rows. *)
Lemma create_teams_table_closed league wc :
  create_teams_table league wc
  = assign_ids 1
      (first_seen
         (filter (λ c, team_name c ≠ "")
            (league_candidates (default [] league)
             ++ wc_candidates (default [] wc)))).
Proof.
  assert (create_teams_table league wc
            = teams_data (foldl add_candidate teams_init
                (league_candidates (default [] league)
                 ++ wc_candidates (default [] wc)))) as ->.
  { unfold create_teams_table. rewrite foldl_app.
    destruct league, wc; cbn [default];
      by rewrite ?league_loop_candidates, ?wc_loop_candidates. }
  rewrite teams_loop_closed. cbn [teams_init teams_data team_id_counter seen_teams app].
  do 2 f_equal. apply list_filter_iff. intros d.
  split; [tauto|]. intros ?. split; [done|]. apply not_elem_of_empty.
Qed.



(** On tables whose name cells are all non-empty the guard never
    passes over a cell. *)
Lemma create_teams_table_by_first_appearance
    (league : list LeagueMatch) (wc : list WCMatch) :
  Forall (λ n, n ≠ "") (match_team_names league wc) →
  create_teams_table (Some league) (Some wc)
  = teams_by_first_appearance league wc.
Proof.
  intros Hall. rewrite create_teams_table_closed. cbn [default].
  unfold teams_by_first_appearance. do 2 f_equal.
  apply filter_all, Forall_forall. intros c Hc.
  rewrite Forall_forall in Hall. apply Hall.
  unfold match_team_names. apply list_elem_of_fmap. eauto.
Qed.



End TeamsTable.



(** ** Match splitter *)

Section Splitter.

Implicit Types (st : split_state).

Lemma split_league_loop (df : list NormLeagueMatch) : ∀ st,
  foldl split_league_step st df
  = {| all_base_matches :=
         all_base_matches st ++
           zip_with league_base_match
             (seqZ (match_id_counter st) (Z.of_nat (length df))) df;
       all_advanced_stats := all_advanced_stats st;
       match_id_counter := match_id_counter st + Z.of_nat (length df) |}.
Proof.
  induction df as [|row df IH]; intros st.
  - cbn. rewrite app_nil_r, Z.add_0_r. by destruct st.
  - cbn [foldl length].
    rewrite IH, Nat2Z.inj_succ.
    rewrite (seqZ_cons (match_id_counter st)) by lia.
    cbn [split_league_step all_base_matches all_advanced_stats
         match_id_counter zip_with].
    rewrite <- app_assoc, Z.pred_succ, !Z.add_1_r. cbn [app].
    f_equal. lia.
Qed.

Lemma split_wc_loop (df : list NormWCMatch) : ∀ st,
  foldl split_wc_step st df
  = {| all_base_matches :=
         all_base_matches st ++
           zip_with wc_base_match
             (seqZ (match_id_counter st) (Z.of_nat (length df))) df;
       all_advanced_stats :=
         all_advanced_stats st ++
           zip_with wc_advanced_stats
             (seqZ (match_id_counter st) (Z.of_nat (length df))) df;
       match_id_counter := match_id_counter st + Z.of_nat (length df) |}.
Proof.
  induction df as [|row df IH]; intros st.
  - cbn. rewrite !app_nil_r, Z.add_0_r. by destruct st.
  - cbn [foldl length].
    rewrite IH, Nat2Z.inj_succ.
    rewrite (seqZ_cons (match_id_counter st)) by lia.
    cbn [split_wc_step all_base_matches all_advanced_stats
         match_id_counter zip_with].
    rewrite <- !app_assoc, Z.pred_succ, !Z.add_1_r. cbn [app].
    f_equal. lia.
Qed.

(** Closed form of the two loops run one after the other. *)
Lemma split_matches_closed (league : list NormLeagueMatch) (wc : list NormWCMatch) :
  split_matches (Some league) (Some wc)
  = (zip_with league_base_match (seqZ 1 (Z.of_nat (length league))) league
     ++ zip_with wc_base_match
          (seqZ (1 + Z.of_nat (length league)) (Z.of_nat (length wc))) wc,
     zip_with wc_advanced_stats
       (seqZ (1 + Z.of_nat (length league)) (Z.of_nat (length wc))) wc).
Proof.
  unfold split_matches. rewrite split_league_loop, split_wc_loop. done.
Qed.

Lemma zip_with_seqZ_ids {A B} (f : Z → A → B) (id : B → cell Z)
    (Hid : ∀ k a, id (f k a) = Some k) (l : list A) k :
  map id (zip_with f (seqZ k (Z.of_nat (length l))) l)
  = map Some (seqZ k (Z.of_nat (length l))).
Proof.
  revert k. induction l as [|a l IH]; intros k; [done|].
  cbn [length]. rewrite Nat2Z.inj_succ, seqZ_cons, Z.pred_succ by lia.
  cbn [zip_with map]. by rewrite Hid, IH.
Qed.

Lemma length_zip_with_seqZ {A B} (f : Z → A → B) (l : list A) k :
  length (zip_with f (seqZ k (Z.of_nat (length l))) l) = length l.
Proof.
  rewrite length_zip_with, length_seqZ. lia.
Qed.

End Splitter.

(** C2.  Match splitter guarantee.  With the league rows processed first
    and the World-Cup rows second, [match_id] runs 1, 2, ... over the whole
    stream in that order; MatchBase has exactly one row per input match;
    MatchStatsAdvanced has exactly one row per World-Cup match and none
    for a league match, its rows carrying, in order, the [match_id]s of
    the World-Cup rows of MatchBase (those after the league rows); and
    every World-Cup base row has a null [referee]. *)
Theorem split_matches_guarantee
    (league : list NormLeagueMatch) (wc : list NormWCMatch) :
  let base := (split_matches (Some league) (Some wc)).1 in
  let adv := (split_matches (Some league) (Some wc)).2 in
  map match_id base
  = map Some (seqZ 1 (Z.of_nat (length league + length wc)))
  ∧ length base = (length league + length wc)%nat
  ∧ take (length league) base
    = zip_with league_base_match (seqZ 1 (Z.of_nat (length league))) league
  ∧ drop (length league) base
    = zip_with wc_base_match
        (seqZ (1 + Z.of_nat (length league)) (Z.of_nat (length wc))) wc
  ∧ adv
    = zip_with wc_advanced_stats
        (seqZ (1 + Z.of_nat (length league)) (Z.of_nat (length wc))) wc
  ∧ length adv = length wc
  ∧ map adv_match_id adv = map match_id (drop (length league) base)
  ∧ map adv_match_id adv
    = map Some (seqZ (1 + Z.of_nat (length league)) (Z.of_nat (length wc)))
  ∧ Forall (λ b, referee b = None) (drop (length league) base).
Proof.
  rewrite split_matches_closed. cbn [fst snd].
  pose proof (length_zip_with_seqZ league_base_match league 1) as Hlen.
  repeat split.
  - rewrite map_app, Nat2Z.inj_add, seqZ_app, map_app by lia.
    f_equal; by apply zip_with_seqZ_ids.
  - rewrite length_app, !length_zip_with_seqZ. done.
  - rewrite take_app_length'; done.
  - rewrite drop_app_length'; done.
  - apply length_zip_with_seqZ.
  - rewrite drop_app_length' by done.
    by rewrite !zip_with_seqZ_ids.
  - by apply zip_with_seqZ_ids.
  - rewrite drop_app_length' by done.
    apply Forall_forall. intros b Hb.
    apply elem_of_lookup_zip_with in Hb as (i & k & row & -> & _); done.
Qed.

(** ** Metrics deriver *)

Section Deriver.

Lemma pct_if_positive_undefined (num den : cell Z) :
  (∀ d, den = Some d → (d ≤ 0)%Z) → pct_if_positive num den = None.
Proof.
  intros Hden. unfold pct_if_positive. destruct den as [d|]; [|done].
  case_bool_decide; [|done]. specialize (Hden d eq_refl). lia.
Qed.

Lemma ratio_if_positive_undefined (num den : cell Z) :
  (∀ d, den = Some d → (d ≤ 0)%Z) → ratio_if_positive num den = None.
Proof.
  intros Hden. unfold ratio_if_positive. destruct den as [d|]; [|done].
  case_bool_decide; [|done]. specialize (Hden d eq_refl). lia.
Qed.

Lemma pct_if_positive_defined (num : cell Z) (d : Z) :
  (0 < d)%Z →
  pct_if_positive num (Some d) = (λ n, pct n d) <$> num.
Proof.
  intros Hd. unfold pct_if_positive.
  rewrite bool_decide_eq_true_2 by done. by destruct num.
Qed.

(** [pct n d] is the number whose product with [d] is [100 n]. *)
Lemma pct_spec (n d : Z) : (0 < d)%Z → (pct n d * inject_Z d == inject_Z n * 100)%Q.
Proof.
  intros Hd. unfold pct, ratio.
  assert (¬ (inject_Z d == 0)%Q) as Hnz.
  { unfold Qeq. cbn. lia. }
  field. exact Hnz.
Qed.

(** A guarded ratio is non-null only on a present numerator and a
    positive denominator, and is then the quotient. *)
Lemma pct_if_positive_Some (num den : cell Z) (v : Q) :
  pct_if_positive num den = Some v
  ↔ ∃ n d : Z, num = Some n ∧ den = Some d ∧ (0 < d)%Z ∧ v = pct n d.
Proof.
  unfold pct_if_positive. split.
  - destruct den as [d|]; [|done]. case_bool_decide; [|done].
    destruct num as [n|]; [|done]. intros [= <-]. by exists n, d.
  - intros (n & d & -> & -> & Hd & ->).
    by rewrite bool_decide_eq_true_2 by done.
Qed.

Lemma ratio_if_positive_Some (num den : cell Z) (v : Q) :
  ratio_if_positive num den = Some v
  ↔ ∃ n d : Z, num = Some n ∧ den = Some d ∧ (0 < d)%Z ∧ v = ratio n d.
Proof.
  unfold ratio_if_positive. split.
  - destruct den as [d|]; [|done]. case_bool_decide; [|done].
    destruct num as [n|]; [|done]. intros [= <-]. by exists n, d.
  - intros (n & d & -> & -> & Hd & ->).
    by rewrite bool_decide_eq_true_2 by done.
Qed.

Lemma qsub_undefined (a b : cell Q) : a = None ∨ b = None → qsub a b = None.
Proof. intros [-> | ->]; [done|]. by destruct a. Qed.

End Deriver.

(** C4.  Derived-metric definedness and round trip.  The deriver's
    functions are total (nothing raises).  Every ratio metric is guarded:
    it is null as soon as its denominator is missing or not positive,
    whatever the numerator, and it is non-null only for a present
    numerator and a positive denominator, where it is the quotient; it
    never stands at zero for an undefined quotient.  The differences are
    null as soon as one operand is missing.  (The sums [total_cards] and
    [goal_contributions] are defined with nulls counting as 0, and
    [result] by comparison; they involve no undefined case.)  For a player
    row of the enhanced table, whose [goals] and [shots] columns are those
    of the input row: with [shots > 0] the stored [shot_efficiency] is
    [goals / shots * 100] (null if [goals] is null), and with [shots = 0],
    negative or null it is null.  Floats are exact rationals here, so the
    tolerance of the round trip is zero. *)
Theorem derived_metrics_null_when_undefined :
  (∀ (num den : cell Z) (v : Q),
     (pct_if_positive num den = Some v
      ↔ ∃ n d : Z, num = Some n ∧ den = Some d ∧ (0 < d)%Z ∧ v = pct n d)
     ∧ (ratio_if_positive num den = Some v
        ↔ ∃ n d : Z, num = Some n ∧ den = Some d ∧ (0 < d)%Z ∧ v = ratio n d))
  ∧ (∀ row : MatchBase,
     ((∀ d, home_shots row = Some d → (d ≤ 0)%Z) →
      home_shot_accuracy (derive_match_row row) = None)
     ∧ ((∀ d, away_shots row = Some d → (d ≤ 0)%Z) →
        away_shot_accuracy (derive_match_row row) = None)
     ∧ (home_goals row = None ∨ away_goals row = None →
        goal_difference (derive_match_row row) = None
        ∧ total_goals (derive_match_row row) = None))
  ∧ (∀ row : MatchStatsAdvanced,
       ((∀ d, home_passes_attempted row = Some d → (d ≤ 0)%Z) →
        home_pass_accuracy (derive_advanced_row row) = None)
       ∧ ((∀ d, away_passes_attempted row = Some d → (d ≤ 0)%Z) →
          away_pass_accuracy (derive_advanced_row row) = None)
       ∧ (home_possession row = None ∨ away_possession row = None →
          possession_delta (derive_advanced_row row) = None)
       ∧ (home_xg row = None ∨ away_xg row = None →
          xg_difference (derive_advanced_row row) = None))
  ∧ (∀ row : NormPlayerRow,
       ((∀ d, pr_games (np_row row) = Some d → (d ≤ 0)%Z) →
        goals_per_game (derive_player_row row) = None
        ∧ assists_per_game (derive_player_row row) = None
        ∧ contributions_per_game (derive_player_row row) = None)
       ∧ ((∀ d, pr_shots (np_row row) = Some d → (d ≤ 0)%Z) →
          shot_efficiency (derive_player_row row) = None
          ∧ sot_percentage (derive_player_row row) = None))
  ∧ (∀ row : Standing,
       ((∀ d, played row = Some d → (d ≤ 0)%Z) →
        win_percentage (derive_standing_row row) = None
        ∧ points_per_game (derive_standing_row row) = None
        ∧ st_goals_per_game (derive_standing_row row) = None)
       ∧ (played row = None ∨ losses row = None →
          clean_sheets (derive_standing_row row) = None))
  ∧ (∀ (row : NormPlayerRow) (s : Z),
       pse_row (derive_player_row row) = row
       ∧ (pr_shots (np_row (pse_row (derive_player_row row))) = Some s →
          (0 < s)%Z →
          match pr_goals (np_row (pse_row (derive_player_row row))) with
          | Some g =>
              shot_efficiency (derive_player_row row) = Some (pct g s)
              ∧ (pct g s * inject_Z s == inject_Z g * 100)%Q
          | None => shot_efficiency (derive_player_row row) = None
          end)).
Proof.
  split.
  { intros num den v.
    split; [apply pct_if_positive_Some|apply ratio_if_positive_Some]. }
  repeat apply conj; intros row; cbn -[pct_if_positive ratio_if_positive pct];
    repeat apply conj;
    try (intros H; repeat apply conj;
         first [ by apply pct_if_positive_undefined
               | by apply ratio_if_positive_undefined
               | by apply qsub_undefined
               | idtac ]).
  - by destruct H as [-> | ->]; [|destruct (home_goals row)].
  - by destruct H as [-> | ->]; [|destruct (home_goals row)].
  - by destruct H as [-> | ->]; [|destruct (played row)].
  - done.
  - intros Hs Hpos. rewrite Hs, pct_if_positive_defined by done.
    destruct (pr_goals (np_row row)) as [g|]; [|done].
    split; [done|]. by apply pct_spec.
Qed.

(** C10.  In the match metrics deriver the [result] column is ['D']
    whenever [home_goals] or [away_goals] is null, both strict comparisons
    being false on a null: such a row records the same value as a genuine
    draw.  With both goals present the result is ['H'], ['A'] or ['D'] by
    comparison, so ['H'] or ['A'] occur only when both goal values are
    present and unequal. *)
Theorem match_result_null_goals_is_draw (row : MatchBase) :
  (home_goals row = None ∨ away_goals row = None →
   result (derive_match_row row) = Some "D")
  ∧ (∀ h a : Z, home_goals row = Some h → away_goals row = Some a →
       result (derive_match_row row)
       = Some (if bool_decide (a < h)%Z then "H"
               else if bool_decide (h < a)%Z then "A" else "D"))
  ∧ (∀ g : Z, home_goals row = Some g → away_goals row = Some g →
       result (derive_match_row row) = Some "D")
  ∧ (result (derive_match_row row) = Some "H"
     ∨ result (derive_match_row row) = Some "A" →
     ∃ h a : Z, home_goals row = Some h ∧ away_goals row = Some a ∧ h ≠ a).
Proof.
  cbn [derive_match_row result]. unfold match_result, zgt.
  repeat apply conj.
  - intros [-> | ->]; [by destruct (away_goals row)|by destruct (home_goals row)].
  - by intros h a -> ->.
  - intros g -> ->. by rewrite bool_decide_eq_false_2 by lia.
  - destruct (home_goals row) as [h|], (away_goals row) as [a|];
      [|by intros [|]..].
    intros Hres. exists h, a. do 2 (split; [done|]). intros ->.
    rewrite bool_decide_eq_false_2 in Hres by lia. by destruct Hres.
Qed.

(** ** Validator *)

Section ValidatorFacts.

Lemma raise_if_passed cond v rest :
  raise_if cond v rest = Passed ↔ cond = false ∧ rest = Passed.
Proof.
  destruct cond; cbn [raise_if]; split; try tauto.
  - discriminate.
  - intros [? _]. discriminate.
Qed.

Lemma count_rows_pos {A} (mask : A → bool) (df : list A) :
  bool_decide (0 < count_rows mask df)%nat = existsb mask df.
Proof.
  unfold count_rows. induction df as [|r df IH]; [done|].
  cbn [existsb]. rewrite filter_cons.
  destruct (mask r) eqn:Hr; cbn.
  - rewrite decide_True by done. cbn. apply bool_decide_eq_true_2. lia.
  - by rewrite decide_False by done.
Qed.

Lemma count_rows_in {A} (mask : A → bool) (df : list A) r :
  r ∈ df → mask r = true → (0 < count_rows mask df)%nat.
Proof.
  intros Hin Hr. unfold count_rows.
  assert (r ∈ filter (λ r, mask r = true) df) as Hf
    by by apply list_elem_of_filter.
  destruct (filter _ df); [by apply elem_of_nil in Hf|cbn; lia].
Qed.

Lemma existsb_false_Forall {A} (mask : A → bool) (df : list A) :
  existsb mask df = false ↔ Forall (λ r, mask r = false) df.
Proof.
  induction df as [|r df IH]; cbn.
  - split; [constructor|done].
  - rewrite orb_false_iff, Forall_cons, IH. done.
Qed.

(** The possession block lets a table through exactly when every row is
    fine, and otherwise raises one of its three violations. *)
Lemma validate_possession_ok adv_df rest :
  Forall (λ r, possession_row_ok (mae_row r) = true) adv_df →
  validate_possession adv_df rest = rest.
Proof.
  intros Hall. unfold validate_possession.
  rewrite !count_rows_pos.
  assert (∀ mask : MatchStatsAdvancedEnhanced → bool,
            (∀ r, possession_row_ok (mae_row r) = true → mask r = false) →
            existsb mask adv_df = false) as Hno.
  { intros mask Hmask. apply existsb_false_Forall.
    eapply Forall_impl; [exact Hall|]. auto. }
  rewrite !Hno; [done|..]; intros r; unfold possession_row_ok;
    rewrite !andb_true_iff, !negb_true_iff; tauto.
Qed.

Lemma validate_possession_raises adv_df rest r :
  r ∈ adv_df → possession_row_ok (mae_row r) = false →
  ∃ n, (0 < n)%nat ∧
    (validate_possession adv_df rest
       = Raised (ValidationError (HomePossessionOver100 n))
     ∨ validate_possession adv_df rest
       = Raised (ValidationError (AwayPossessionOver100 n))
     ∨ validate_possession adv_df rest
       = Raised (ValidationError (PossessionSumNot100 n))).
Proof.
  intros Hin Hbad. unfold validate_possession, raise_if.
  case_bool_decide as H1; [eauto|].
  case_bool_decide as H2; [eauto|].
  case_bool_decide as H3; [eauto 6|].
  exfalso. unfold possession_row_ok in Hbad.
  rewrite !andb_false_iff, !negb_false_iff in Hbad.
  destruct Hbad as [[Hb|Hb]|Hb];
    [apply H1|apply H2|apply H3];
    by eapply (count_rows_in _ _ r).
Qed.

(** A table with no value above 100 but a row out of the band is
    reported as a possession-sum violation. *)
Lemma validate_possession_sum_violation adv_df rest r :
  Forall (λ r, qgt (home_possession (mae_row r)) (Some 100%Q) = false
               ∧ qgt (away_possession (mae_row r)) (Some 100%Q) = false)
         adv_df →
  r ∈ adv_df → possession_sum_invalid (mae_row r) = true →
  validate_possession adv_df rest
  = Raised (ValidationError (PossessionSumNot100
      (count_rows (λ r, possession_sum_invalid (mae_row r)) adv_df))).
Proof.
  intros Hall Hin Hbad. unfold validate_possession.
  rewrite !count_rows_pos.
  assert (existsb (λ r, qgt (home_possession (mae_row r)) (Some 100%Q)) adv_df
          = false) as ->.
  { apply existsb_false_Forall. eapply Forall_impl; [exact Hall|].
    intros ? [? ?]. done. }
  assert (existsb (λ r, qgt (away_possession (mae_row r)) (Some 100%Q)) adv_df
          = false) as ->.
  { apply existsb_false_Forall. eapply Forall_impl; [exact Hall|].
    intros ? [? ?]. done. }
  cbn [raise_if].
  assert (existsb (λ r, possession_sum_invalid (mae_row r)) adv_df = true) as ->.
  { apply existsb_exists. exists r. split; [by apply list_elem_of_In|done]. }
  done.
Qed.

Lemma validate_match_stats_advanced_passed adv_df base :
  validate_match_stats_advanced (Some adv_df) base = Passed →
  Forall (λ r, possession_row_ok (mae_row r) = true) adv_df.
Proof.
  intros Hpass. apply Forall_forall. intros r Hin.
  destruct (possession_row_ok (mae_row r)) eqn:Hok; [done|exfalso].
  unfold validate_match_stats_advanced in Hpass.
  destruct base as [base_df|]; [|done].
  apply raise_if_passed in Hpass as [_ Hpass].
  cbn zeta in Hpass. apply raise_if_passed in Hpass as [_ Hpass].
  edestruct (validate_possession_raises adv_df) as (n & _ & Hr); [done..|].
  rewrite Hpass in Hr. destruct Hr as [Hr|[Hr|Hr]]; discriminate.
Qed.

End ValidatorFacts.

Section Possession.

Lemma possession_sum_invalid_false row :
  possession_sum_invalid row = false
  ↔ (98 <= possession_sum row)%Q ∧ (possession_sum row <= 102)%Q.
Proof.
  unfold possession_sum_invalid.
  by rewrite orb_false_iff, !negb_false_iff, !Qle_bool_iff.
Qed.

Lemma qgt_false_iff (c : cell Q) (bound : Q) :
  qgt c (Some bound) = false ↔ ∀ v, c = Some v → (v <= bound)%Q.
Proof.
  unfold qgt. destruct c as [x|]; [|done].
  rewrite negb_false_iff, Qle_bool_iff. split; [by intros ? ? [= <-]|auto].
Qed.

Lemma possession_row_ok_iff row :
  possession_row_ok row = true
  ↔ (∀ v, home_possession row = Some v → (v <= 100)%Q)
    ∧ (∀ v, away_possession row = Some v → (v <= 100)%Q)
    ∧ (98 <= possession_sum row)%Q ∧ (possession_sum row <= 102)%Q.
Proof.
  unfold possession_row_ok.
  rewrite !andb_true_iff, !negb_true_iff, !qgt_false_iff,
    possession_sum_invalid_false. tauto.
Qed.

End Possession.

(** C9.  In the possession-sum check a null possession value counts as
    zero.  A row with both values null has sum 0 and is a possession-sum
    violation: a table containing it never passes, and is reported as a
    possession-sum failure as soon as no value of the table exceeds 100.
    A row with exactly one non-null value [v] has sum [v] and passes the
    sum check if and only if [98 <= v <= 102]. *)
Theorem possession_sum_counts_null_as_zero :
  (∀ row : MatchStatsAdvanced,
     home_possession row = None → away_possession row = None →
     (possession_sum row == 0)%Q ∧ possession_sum_invalid row = true)
  ∧ (∀ (row : MatchStatsAdvanced) (v : Q),
       (home_possession row = Some v ∧ away_possession row = None)
       ∨ (home_possession row = None ∧ away_possession row = Some v) →
       (possession_sum row == v)%Q
       ∧ (possession_sum_invalid row = false ↔ (98 <= v)%Q ∧ (v <= 102)%Q))
  ∧ (∀ (adv_df : list MatchStatsAdvancedEnhanced)
       (base : option (list MatchBaseEnhanced)) r,
       r ∈ adv_df →
       home_possession (mae_row r) = None →
       away_possession (mae_row r) = None →
       validate_match_stats_advanced (Some adv_df) base ≠ Passed
       ∧ (Forall (λ r, qgt (home_possession (mae_row r)) (Some 100%Q) = false
                       ∧ qgt (away_possession (mae_row r)) (Some 100%Q) = false)
                 adv_df →
          ∀ rest,
            validate_possession adv_df rest
            = Raised (ValidationError (PossessionSumNot100
                (count_rows (λ r, possession_sum_invalid (mae_row r)) adv_df))))).
Proof.
  assert (∀ row : MatchStatsAdvanced,
            home_possession row = None → away_possession row = None →
            (possession_sum row == 0)%Q ∧ possession_sum_invalid row = true)
    as Hnull.
  { intros row Hh Ha. unfold possession_sum_invalid, possession_sum.
    rewrite Hh, Ha. done. }
  split; [exact Hnull|]. split.
  - intros row v Hone.
    assert (possession_sum row == v)%Q as Hsum.
    { unfold possession_sum. destruct Hone as [[-> ->]|[-> ->]]; cbn; ring. }
    split; [done|]. rewrite possession_sum_invalid_false.
    by rewrite Hsum.
  - intros adv_df base r Hin Hh Ha.
    destruct (Hnull _ Hh Ha) as [_ Hbad]. split.
    + intros Hpass%validate_match_stats_advanced_passed.
      rewrite Forall_forall in Hpass. specialize (Hpass r Hin).
      unfold possession_row_ok in Hpass. rewrite Hbad in Hpass.
      by rewrite andb_false_r in Hpass.
    + intros Hall rest. by eapply validate_possession_sum_violation.
Qed.

(** The possession checks accept a negative value: sixty-four rows with the
    pair (-1, 100), whose sum 99 is inside the band, pass the whole
    advanced-stats validation although -1 lies outside [0, 100]. *)
Lemma negative_possession_passes_validation :
  validate_match_stats_advanced
    (Some (sixty_four_possessions (Some (-1)%Q) (Some 100%Q)))
    (Some sixty_four_matches) = Passed
  ∧ Forall (λ r, ∃ v, home_possession (mae_row r) = Some v ∧ (v < 0)%Q)
      (sixty_four_possessions (Some (-1)%Q) (Some 100%Q)).
Proof.
  split; [by vm_compute|].
  apply Forall_forall. intros r (k & -> & _)%list_elem_of_fmap.
  exists (-1)%Q. split; [done|]. by vm_compute.
Qed.

(** C6 (as the code has it).  The possession block of the advanced-stats
    validation enforces, for every row, that neither possession value
    exceeds 100 and that [home_possession + away_possession] (a missing
    value counting as 0) lies in the band 98 to 102: a table whose rows
    all satisfy this goes through the block, any other table raises one of
    the block's three violations.  The pair (61.0, 40.5), summing to 101.5,
    passes; a pair summing to 90 is rejected, as a possession-sum failure
    when no value of the table exceeds 100; a value above 100 is rejected.
    There is no lower bound of its own on a possession value. *)
Theorem possession_validation_upper_bound_and_sum :
  (∀ row : MatchStatsAdvanced,
     possession_row_ok row = true
     ↔ (∀ v, home_possession row = Some v → (v <= 100)%Q)
       ∧ (∀ v, away_possession row = Some v → (v <= 100)%Q)
       ∧ (98 <= possession_sum row)%Q ∧ (possession_sum row <= 102)%Q)
  ∧ (∀ (adv_df : list MatchStatsAdvancedEnhanced) (rest : verdict),
       Forall (λ r, possession_row_ok (mae_row r) = true) adv_df →
       validate_possession adv_df rest = rest)
  ∧ (∀ (adv_df : list MatchStatsAdvancedEnhanced) (rest : verdict) r,
       r ∈ adv_df → possession_row_ok (mae_row r) = false →
       ∃ n, (0 < n)%nat ∧
         (validate_possession adv_df rest
            = Raised (ValidationError (HomePossessionOver100 n))
          ∨ validate_possession adv_df rest
            = Raised (ValidationError (AwayPossessionOver100 n))
          ∨ validate_possession adv_df rest
            = Raised (ValidationError (PossessionSumNot100 n))))
  ∧ (∀ (adv_df : list MatchStatsAdvancedEnhanced)
       (base : option (list MatchBaseEnhanced)),
       validate_match_stats_advanced (Some adv_df) base = Passed →
       Forall (λ r, possession_row_ok (mae_row r) = true) adv_df)
  ∧ (∀ k : Z, possession_row_ok (possession_row k (Some 61%Q) (Some 40.5%Q)) = true)
  ∧ validate_match_stats_advanced
      (Some (sixty_four_possessions (Some 61%Q) (Some 40.5%Q)))
      (Some sixty_four_matches) = Passed
  ∧ (∀ row : MatchStatsAdvanced,
       (possession_sum row == 90)%Q →
       possession_sum_invalid row = true ∧ possession_row_ok row = false)
  ∧ (∀ (adv_df : list MatchStatsAdvancedEnhanced) (rest : verdict) r,
       Forall (λ r, qgt (home_possession (mae_row r)) (Some 100%Q) = false
                    ∧ qgt (away_possession (mae_row r)) (Some 100%Q) = false)
              adv_df →
       r ∈ adv_df → (possession_sum (mae_row r) == 90)%Q →
       validate_possession adv_df rest
       = Raised (ValidationError (PossessionSumNot100
           (count_rows (λ r, possession_sum_invalid (mae_row r)) adv_df))))
  ∧ (∀ (row : MatchStatsAdvanced) (v : Q),
       home_possession row = Some v ∨ away_possession row = Some v →
       (100 < v)%Q → possession_row_ok row = false).
Proof.
  assert (∀ row : MatchStatsAdvanced,
            (possession_sum row == 90)%Q →
            possession_sum_invalid row = true) as Hninety.
  { intros row Hsum. unfold possession_sum_invalid. by rewrite Hsum. }
  repeat apply conj.
  - apply possession_row_ok_iff.
  - apply validate_possession_ok.
  - apply validate_possession_raises.
  - apply validate_match_stats_advanced_passed.
  - done.
  - by vm_compute.
  - intros row Hsum. split; [by apply Hninety|].
    unfold possession_row_ok. rewrite Hninety by done. apply andb_false_r.
  - intros adv_df rest r Hall Hin Hsum.
    eapply validate_possession_sum_violation; eauto.
  - intros row v Hv Hgt.
    destruct (possession_row_ok row) eqn:Hok; [exfalso|done].
    apply possession_row_ok_iff in Hok as (Hh & Ha & _).
    destruct Hv as [Hv|Hv]; [apply Hh in Hv|apply Ha in Hv]; lra.
Qed.

Section Standings.

Lemma standing_arithmetic_iff (row : Standing) :
  played_mismatch row = false ∧ points_mismatch row = false
  ↔ standing_arithmetic row.
Proof.
  unfold played_mismatch, points_mismatch, standing_arithmetic, zne, zeq, zadd, zmul.
  rewrite !negb_false_iff.
  destruct (wins row) as [w|], (draws row) as [d|], (losses row) as [l|],
    (played row) as [p|], (points row) as [pts|];
    rewrite ?bool_decide_eq_true;
    (split; [intros [? ?]; try done | intros (?&?&?&?&?&?&?&?&?&?&?&?); try done]).
  - exists w, d, l, p, pts. by repeat split.
  - by simplify_eq.
Qed.


Lemma validate_standings_passed df :
  validate_standings (Some df) = Passed
  ↔ length df = 32%nat
    ∧ Forall (λ r, standing_arithmetic (se_row r)) df
    ∧ standings_other_checks df = Passed.
Proof.
  unfold validate_standings. cbn zeta.
  rewrite !raise_if_passed, !count_rows_pos, !existsb_false_Forall,
    negb_false_iff, bool_decide_eq_true.
  assert (Forall (λ r, played_mismatch (se_row r) = false) df
          ∧ Forall (λ r, points_mismatch (se_row r) = false) df
          ↔ Forall (λ r, standing_arithmetic (se_row r)) df) as <-.
  { rewrite <- Forall_and. apply Forall_proper; [|done].
    intros r. apply standing_arithmetic_iff. }
  tauto.
Qed.

End Standings.


(** ** Players table and the reference-table checks *)

Section PlayersTable.

(** A key is absent from [dict(zip(...))] exactly when it is no key of
    the zipped pairs. *)
Lemma dict_zip_lookup_None `{Countable K} {V} (kvs : list (K * V)) (k : K) :
  dict_zip kvs !! k = None ↔ k ∉ map fst kvs.
Proof.
  unfold dict_zip.
  assert (∀ m : gmap K V,
            foldl (λ m kv, <[kv.1:=kv.2]> m) m kvs !! k = None
            ↔ m !! k = None ∧ k ∉ map fst kvs) as Hgen.
  { induction kvs as [|[k' v] kvs IH]; intros m; cbn [foldl map].
    - split; [intros ?; split; [done|apply not_elem_of_nil]|tauto].
    - rewrite IH, not_elem_of_cons. cbn [fst snd].
      rewrite lookup_insert_None. intuition congruence. }
  rewrite Hgen, lookup_empty. tauto.
Qed.








End PlayersTable.


(** ** The small-fixture scenario *)



(** ** Instances on sample tables *)

(** A name seen in both sources keeps its league row and is not added
    again; ids follow the order of first appearance. *)
Example create_teams_table_sample :
  map (λ t, (team_id t, team_name t, competition_type t, country t))
      (create_teams_table (Some sample_league) (Some sample_wc))
  = [ (Some 1%Z, "Team A", "league", None);
      (Some 2%Z, "Team B", "league", None);
      (Some 3%Z, "Team C", "league", None);
      (Some 4%Z, "Qatar", "international", Some "Qatar");
      (Some 5%Z, "Ecuador", "international", Some "Ecuador") ].
Proof. by vm_compute. Qed.

(** The truthiness guard passes over an empty name cell without using up
    an id. *)
Example create_teams_table_empty_cell :
  map (λ t, (team_id t, team_name t))
      (create_teams_table (Some [fixture "" "Team B" (Some 1%Z) (Some 0%Z)]) None)
  = [ (Some 1%Z, "Team B") ].
Proof. by vm_compute. Qed.

Example split_matches_sample :
  let teams := Some (create_teams_table (Some sample_league) (Some sample_wc)) in
  let norm := normalize_matches teams (Some sample_league) (Some sample_wc) in
  (map (λ b, (match_id b, home_team_id b, away_team_id b))
       (split_matches norm.1 norm.2).1,
   map adv_match_id (split_matches norm.1 norm.2).2)
  = ([ (Some 1%Z, Some 1%Z, Some 2%Z); (Some 2%Z, Some 1%Z, Some 2%Z);
       (Some 3%Z, Some 1%Z, Some 3%Z); (Some 4%Z, Some 4%Z, Some 5%Z);
       (Some 5%Z, Some 1%Z, Some 4%Z) ],
     [ Some 4%Z; Some 5%Z ]).
Proof. by vm_compute. Qed.

Example create_players_table_sample :
  (map (λ p, (player_id p, player_name p, p_team_id p))) <$>
    create_players_table
      (Some (create_teams_table (Some sample_league) (Some sample_wc)))
      (Some sample_players)
  = Some [ (Some 1%Z, "Striker", Some 4%Z); (Some 2%Z, "Keeper", None) ].
Proof. by vm_compute. Qed.




Lemma shot_efficiency_round_trip_sample :
  shot_efficiency
    (derive_player_row
       {| np_player_id := Some 1%Z; np_team_id := Some 4%Z;
          np_row := player_fixture "Striker" (Some "Qatar")
                      (Some 3%Z) (Some 2%Z) (Some 5%Z) |})
  = Some (pct 2 5).
Proof.
  exact (proj1 (proj2 (proj2 (proj2 (proj2 (proj2 (proj2
           derived_metrics_null_when_undefined))))
           {| np_player_id := Some 1%Z; np_team_id := Some 4%Z;
              np_row := player_fixture "Striker" (Some "Qatar")
                          (Some 3%Z) (Some 2%Z) (Some 5%Z) |} 5%Z)
           eq_refl eq_refl)).
Defined.

Lemma match_result_null_goals_sample :
  result (derive_match_row (score_row 1 1 2 None (Some 2%Z))) = Some "D".
Proof.
  apply (proj1 (match_result_null_goals_is_draw
                  (score_row 1 1 2 None (Some 2%Z)))).
  left. reflexivity.
Defined.

Lemma possession_sum_null_sample :
  (possession_sum (possession_row 1 None None) == 0)%Q
  ∧ possession_sum_invalid (possession_row 1 None None) = true.
Proof.
  apply (proj1 possession_sum_counts_null_as_zero (possession_row 1 None None));
    reflexivity.
Defined.

Lemma possession_validation_sample :
  Forall (λ r, possession_row_ok (mae_row r) = true)
    (sixty_four_possessions (Some 61%Q) (Some 40.5%Q))
  ∧ validate_possession (sixty_four_possessions (Some 61%Q) (Some 40.5%Q)) Passed
    = Passed.
Proof.
  assert (Forall (λ r, possession_row_ok (mae_row r) = true)
            (sixty_four_possessions (Some 61%Q) (Some 40.5%Q))) as Hall.
  { apply Forall_forall. intros r (k & -> & _)%list_elem_of_fmap. reflexivity. }
  split; [exact Hall|].
  exact (proj1 (proj2 possession_validation_upper_bound_and_sum) _ Passed Hall).
Defined.




(** * Further properties of the stages *)

(** ** The name-to-id dictionary *)

Section Dictionary.

Context `{Countable K} {V : Type}.

Lemma dict_zip_foldl_fresh (kvs : list (K * V)) (m : gmap K V) (k : K) :
  k ∉ map fst kvs →
  foldl (λ m kv, <[kv.1:=kv.2]> m) m kvs !! k = m !! k.
Proof.
  revert m. induction kvs as [|[k' v] kvs IH]; intros m; cbn [foldl map fst snd].
  - done.
  - rewrite not_elem_of_cons. intros [Hne Hk].
    rewrite IH by done. by rewrite lookup_insert_ne.
Qed.

Lemma dict_zip_lookup_last (kvs1 kvs2 : list (K * V)) (k : K) (v : V) :
  k ∉ map fst kvs2 →
  dict_zip (kvs1 ++ (k, v) :: kvs2) !! k = Some v.
Proof.
  intros Hk. unfold dict_zip. rewrite foldl_app. cbn [foldl fst snd].
  rewrite dict_zip_foldl_fresh by done. apply lookup_insert_eq.
Qed.

End Dictionary.

Lemma team_name_to_id_last (l1 l2 : list Team) (t : Team) :
  team_name t ∉ map team_name l2 →
  dict_get (team_name_to_id (l1 ++ t :: l2)) (team_name t) = team_id t.
Proof.
  intros Hlast. unfold dict_get, team_name_to_id.
  rewrite map_app. cbn [map].
  rewrite dict_zip_lookup_last; [done|].
  by rewrite map_map.
Qed.

Lemma team_name_to_id_NoDup (teams_df : list Team) (t : Team) :
  NoDup (map team_name teams_df) → t ∈ teams_df →
  dict_get (team_name_to_id teams_df) (team_name t) = team_id t.
Proof.
  intros Hnd (l1 & l2 & ->)%list_elem_of_split.
  apply team_name_to_id_last.
  rewrite map_app in Hnd. cbn [map] in Hnd.
  apply NoDup_app in Hnd as (_ & _ & Hnd).
  by apply NoDup_cons in Hnd as [Hnd _].
Qed.

(** X1.  The dictionary [dict(zip(team_name, team_id))] built from a Teams
    table maps a name to the id of the last row that carries it and has
    no entry for a name the table lacks; on a table with pairwise distinct
    names, looking up the name of any row gives back that row's id. *)
Theorem team_name_to_id_lookup (teams_df : list Team) :
  (∀ (l1 l2 : list Team) (t : Team),
     teams_df = l1 ++ t :: l2 → team_name t ∉ map team_name l2 →
     dict_get (team_name_to_id teams_df) (team_name t) = team_id t)
  ∧ (∀ n : string, n ∉ map team_name teams_df →
       team_name_to_id teams_df !! n = None
       ∧ dict_get (team_name_to_id teams_df) n = None)
  ∧ (NoDup (map team_name teams_df) →
     ∀ t, t ∈ teams_df →
       dict_get (team_name_to_id teams_df) (team_name t) = team_id t).
Proof.
  repeat apply conj.
  - intros l1 l2 t -> Hlast. by apply team_name_to_id_last.
  - intros n Hn.
    assert (team_name_to_id teams_df !! n = None) as Hnone.
    { unfold team_name_to_id. apply dict_zip_lookup_None. by rewrite map_map. }
    split; [done|]. unfold dict_get. by rewrite Hnone.
  - intros Hnd t Ht. by apply team_name_to_id_NoDup.
Qed.

Lemma team_name_to_id_lookup_sample :
  ∃ t, built_teams sample_league sample_wc !! 3%nat = Some t
       ∧ team_name t = "Qatar"
       ∧ dict_get (team_name_to_id (built_teams sample_league sample_wc))
           (team_name t) = team_id t.
Proof.
  eexists. split; [reflexivity|]. split; [reflexivity|].
  apply (proj2 (proj2 (team_name_to_id_lookup
                         (built_teams sample_league sample_wc)))).
  - apply (bool_decide_unpack _). vm_compute. exact I.
  - apply (list_elem_of_lookup_2 _ 3%nat). reflexivity.
Defined.

(** ** Tables built by the stages *)

Section BuiltTables.

Implicit Types (league : list LeagueMatch) (wc : list WCMatch).








Lemma built_split_closed league wc :
  built_split league wc
  = (zip_with league_base_match (seqZ 1 (Z.of_nat (length league)))
       (map (normalize_league_row (team_name_to_id (built_teams league wc))) league)
     ++ zip_with wc_base_match
          (seqZ (1 + Z.of_nat (length league)) (Z.of_nat (length wc)))
          (map (normalize_wc_row (team_name_to_id (built_teams league wc))) wc),
     zip_with wc_advanced_stats
       (seqZ (1 + Z.of_nat (length league)) (Z.of_nat (length wc)))
       (map (normalize_wc_row (team_name_to_id (built_teams league wc))) wc)).
Proof.
  unfold built_split, normalize_matches. cbn [fst snd fmap option_fmap option_map].
  by rewrite split_matches_closed, !length_map.
Qed.


Lemma built_base_match_ids league wc :
  map match_id (built_split league wc).1
  = map Some (seqZ 1 (Z.of_nat (length league + length wc))).
Proof.
  rewrite built_split_closed. cbn [fst].
  rewrite map_app, Nat2Z.inj_add, seqZ_app, map_app by lia.
  set (d := team_name_to_id (built_teams league wc)).
  rewrite <- (length_map (normalize_league_row d) league).
  rewrite <- (length_map (normalize_wc_row d) wc).
  f_equal; by apply zip_with_seqZ_ids.
Qed.


End BuiltTables.

(** ** Percentages against their bound *)

Section Percentages.

Lemma raise_if_raised cond v rest e :
  raise_if cond v rest = Raised e →
  (cond = true ∧ e = ValidationError v) ∨ (cond = false ∧ rest = Raised e).
Proof. destruct cond; cbn [raise_if]; [intros [= <-]|]; auto. Qed.

Lemma pct_le_100 (n d : Z) : (0 < d)%Z → (n ≤ d)%Z → (pct n d <= 100)%Q.
Proof.
  intros Hd Hn. unfold pct, ratio.
  assert (0 < inject_Z d)%Q as Hd' by (rewrite <- (Zlt_Qlt 0); done).
  assert (inject_Z n <= inject_Z d)%Q as Hn' by (by rewrite <- Zle_Qle).
  assert (inject_Z n / inject_Z d <= 1)%Q as Hq.
  { apply Qle_shift_div_r; [done|]. by rewrite Qmult_1_l. }
  apply Qle_trans with (1 * 100)%Q; [|by apply Qle_lteq; right].
  by apply Qmult_le_compat_r.
Qed.

Lemma pct_nonneg (n d : Z) : (0 < d)%Z → (0 ≤ n)%Z → (0 <= pct n d)%Q.
Proof.
  intros Hd Hn. unfold pct, ratio.
  assert (0 < inject_Z d)%Q as Hd' by (rewrite <- (Zlt_Qlt 0); done).
  assert (0 <= inject_Z n)%Q as Hn' by (rewrite <- (Zle_Qle 0); done).
  apply Qmult_le_0_compat; [|done].
  apply Qle_shift_div_l; [done|]. by rewrite Qmult_0_l.
Qed.

(** A guarded percentage exceeds 100 only when the numerator exceeds the
    denominator. *)
Lemma pct_if_positive_over_100 (num den : cell Z) :
  qgt (pct_if_positive num den) (Some 100%Q) = true → zgt num den = true.
Proof.
  unfold qgt. destruct (pct_if_positive num den) as [v|] eqn:Hv; [|done].
  apply pct_if_positive_Some in Hv as (n & d & -> & -> & Hd & ->).
  rewrite negb_true_iff. intros Hgt. cbn [zgt]. apply bool_decide_eq_true.
  destruct (decide (d < n)%Z) as [|Hle]; [done|exfalso].
  assert (Qle_bool (pct n d) 100 = true) as Hle'.
  { apply Qle_bool_iff, pct_le_100; lia. }
  congruence.
Qed.


End Percentages.

(** ** What validation can report on a pipeline run *)

Section RunFailures.

Lemma existsb_fmap {A B} (f : A → B) (mask : B → bool) (l : list A) :
  existsb mask (map f l) = existsb (λ x, mask (f x)) l.
Proof. induction l as [|x l IH]; cbn; [done|]. by rewrite IH. Qed.

Lemma existsb_true_elem {A} (mask : A → bool) (l : list A) :
  existsb mask l = true → ∃ x, x ∈ l ∧ mask x = true.
Proof.
  intros (x & Hx & Hm)%existsb_exists. exists x.
  split; [by apply list_elem_of_In|done].
Qed.


Lemma set_difference_nil (child parent : list (cell Z)) :
  Forall (λ i, is_Some i ∧ i ∈ parent) child →
  set_difference child parent = [].
Proof.
  intros Hall. unfold set_difference. apply filter_none.
  eapply Forall_impl; [exact Hall|]. intros i [[k ->] Hin] [|]; done.
Qed.

End RunFailures.



(** ** Ids against names *)






(** ** Rows appended to the stream *)

Lemma teams_loop_app (st : teams_state) (cs1 cs2 : list Team) :
  teams_data (foldl add_candidate st cs1)
  `prefix_of` teams_data (foldl add_candidate st (cs1 ++ cs2)).
Proof.
  rewrite foldl_app, (teams_loop_closed cs2). by eexists.
Qed.

Lemma wc_candidates_app (wc1 wc2 : list WCMatch) :
  wc_candidates (wc1 ++ wc2) = wc_candidates wc1 ++ wc_candidates wc2.
Proof. unfold wc_candidates. by rewrite map_app, concat_app. Qed.

Lemma league_candidates_app (l1 l2 : list LeagueMatch) :
  league_candidates (l1 ++ l2) = league_candidates l1 ++ league_candidates l2.
Proof. unfold league_candidates. by rewrite map_app, concat_app. Qed.

Lemma create_teams_table_loop league wc :
  create_teams_table league wc
  = teams_data (foldl add_candidate teams_init
      (league_candidates (default [] league) ++ wc_candidates (default [] wc))).
Proof.
  unfold create_teams_table. rewrite foldl_app.
  destruct league, wc; cbn [default];
    by rewrite ?league_loop_candidates, ?wc_loop_candidates.
Qed.

(** X4.  Ids are stable under appended rows.  World-Cup rows added at the
    end of the World-Cup table, or league rows added at the end of the
    league table when there is no World-Cup row, leave every row of the
    Teams table as it was, id included, and only add rows after them. *)
Theorem create_teams_table_appended_rows
    (league league' : list LeagueMatch) (wc wc' : list WCMatch) :
  create_teams_table (Some league) (Some wc)
    `prefix_of` create_teams_table (Some league) (Some (wc ++ wc'))
  ∧ create_teams_table (Some league) None
      `prefix_of` create_teams_table (Some league) (Some wc)
  ∧ create_teams_table (Some league) (Some [])
      `prefix_of` create_teams_table (Some (league ++ league')) (Some []).
Proof.
  rewrite !create_teams_table_loop. cbn [from_option id]. repeat apply conj.
  - rewrite wc_candidates_app, app_assoc. apply teams_loop_app.
  - cbn [wc_candidates map concat]. rewrite app_nil_r. apply teams_loop_app.
  - cbn [wc_candidates map concat]. rewrite !app_nil_r, league_candidates_app.
    apply teams_loop_app.
Qed.

(** ** Reference tables built by the stages *)








(** ** Player ids through the normaliser *)

Section NormalizePlayers.




End NormalizePlayers.



(** ** A run without World-Cup rows *)

Section NoWorldCup.

Lemma split_matches_no_wc (league : option (list NormLeagueMatch))
    (wc : option (list NormWCMatch)) :
  wc = None ∨ wc = Some [] → (split_matches league wc).2 = [].
Proof.
  intros Hwc. unfold split_matches.
  assert (∀ st, all_advanced_stats
                  (match wc with
                   | Some df => foldl split_wc_step st df
                   | None => st
                   end) = all_advanced_stats st) as ->
    by by destruct Hwc as [-> | ->].
  destruct league as [df|]; [|done]. by rewrite split_league_loop.
Qed.

Lemma and_then_passed (v rest : verdict) :
  and_then v rest = Passed ↔ v = Passed ∧ rest = Passed.
Proof. destruct v; cbn [and_then]; split; [tauto|tauto|done|by intros [? _]]. Qed.

End NoWorldCup.

(** X7.  Without a World-Cup row (the file missing or empty) the splitter
    produces no advanced row, so, in a fresh output directory,
    [db_match_stats_advanced.csv] is not written and the deriver produces
    no enhanced advanced table; the
    advanced-stats validation then raises the missing-file failure, and
    the run cannot pass validation, whatever the league, standings and
    player tables are. *)
Theorem no_world_cup_rows_no_advanced_table
    (to_datetime_raises : list (cell string) → bool)
    (league : option (list LeagueMatch)) (wc : option (list WCMatch))
    (standings : option (list Standing)) (players : option (list PlayerRow)) :
  wc = None ∨ wc = Some [] →
  db_match_stats_advanced_enhanced (run_stages league wc standings players) = None
  ∧ (∀ base, validate_match_stats_advanced
               (db_match_stats_advanced_enhanced
                  (run_stages league wc standings players)) base
             = Raised (ValidationError (MissingFile adv_file)))
  ∧ run_pipeline to_datetime_raises league wc standings players ≠ Passed.
Proof.
  intros Hwc.
  assert (db_match_stats_advanced_enhanced
            (run_stages league wc standings players) = None) as Hnone.
  { unfold run_stages, normalize_matches.
    set (d := team_name_to_id (create_teams_table league wc)).
    destruct (split_matches (map (normalize_league_row d) <$> league)
                (map (normalize_wc_row d) <$> wc)) as [base adv] eqn:Hsplit.
    assert (adv = []) as ->.
    { change adv with (base, adv).2. rewrite <- Hsplit.
      apply split_matches_no_wc. by destruct Hwc as [-> | ->]; [left|right]. }
    done. }
  split; [exact Hnone|]. split.
  - intros base. by rewrite Hnone.
  - unfold run_pipeline, validate_all.
    intros (_ & (_ & (Hadv & _)%and_then_passed)%and_then_passed)%and_then_passed.
    by rewrite Hnone in Hadv.
Qed.

Lemma no_world_cup_rows_sample :
  db_match_stats_advanced_enhanced
    (run_stages (Some sample_league) None None (Some sample_players)) = None.
Proof.
  apply (no_world_cup_rows_no_advanced_table (λ _, false) (Some sample_league)
           None None (Some sample_players)).
  left. reflexivity.
Defined.

(** ** Advanced statistics built by the stages *)

Lemma built_adv_match_ids (league : list LeagueMatch) (wc : list WCMatch) :
  map adv_match_id (built_split league wc).2
  = map Some (seqZ (1 + Z.of_nat (length league)) (Z.of_nat (length wc))).
Proof.
  rewrite built_split_closed. cbn [snd].
  set (d := team_name_to_id (built_teams league wc)).
  rewrite <- (length_map (normalize_wc_row d) wc).
  by apply zip_with_seqZ_ids.
Qed.

(** X8.  On the advanced table the stages build themselves, the
    advanced-stats validation can only fail for the data: no World-Cup row
    at all (missing file), a row count other than 64, a possession value
    or sum out of range, a negative xG, or more passes completed than
    attempted.  Every advanced row refers to a [match_id] of the base
    table, and the pass accuracy check cannot fire once the pass counts
    have been accepted. *)
Theorem built_advanced_validation_failures
    (league : list LeagueMatch) (wc : list WCMatch) (e : exn) :
  validate_match_stats_advanced
    (map derive_advanced_row <$> advanced_file (built_split league wc).2)
    (Some (map derive_match_row (built_split league wc).1)) = Raised e →
  ∃ v, e = ValidationError v
       ∧ (advanced_data_violation v ∨ v = MissingFile adv_file).
Proof.
  unfold validate_match_stats_advanced, advanced_file.
  case_bool_decide as Hlen; cbn [fmap option_fmap option_map];
    [|intros [= <-]; eauto].
  set (adv := (built_split league wc).2) in *. cbn zeta. intros He.
  apply raise_if_raised in He as [[_ ->]|[_ He]]; [eexists; split; [done|by left]|].
  apply raise_if_raised in He as [[Hc _]|[_ He]].
  { exfalso. rewrite set_difference_nil in Hc; [done|].
    rewrite !map_map. cbn [derive_advanced_row mae_row derive_match_row mbe_row].
    unfold adv. rewrite built_adv_match_ids, built_base_match_ids.
    apply Forall_fmap, Forall_forall. intros k Hk. cbn. split; [eauto|].
    apply list_elem_of_fmap. exists k. split; [done|].
    apply elem_of_seqZ in Hk. apply elem_of_seqZ. lia. }
  unfold validate_possession in He.
  apply raise_if_raised in He as [[_ ->]|[_ He]]; [eexists; split; [done|by left]|].
  apply raise_if_raised in He as [[_ ->]|[_ He]]; [eexists; split; [done|by left]|].
  apply raise_if_raised in He as [[_ ->]|[_ He]]; [eexists; split; [done|by left]|].
  apply raise_if_raised in He as [[_ ->]|[_ He]]; [eexists; split; [done|by left]|].
  apply raise_if_raised in He as [[_ ->]|[_ He]]; [eexists; split; [done|by left]|].
  apply raise_if_raised in He as [[_ ->]|[Hpass He]];
    [eexists; split; [done|by left]|].
  apply raise_if_raised in He as [[Hc _]|[_ He]]; [|done].
  exfalso. rewrite count_rows_pos in Hc, Hpass. rewrite existsb_fmap in Hc, Hpass.
  apply existsb_true_elem in Hc as (a & Ha & Hacc).
  apply pct_if_positive_over_100 in Hacc.
  apply existsb_false_Forall in Hpass. rewrite Forall_forall in Hpass.
  specialize (Hpass a Ha). cbn in Hpass. congruence.
Qed.

Lemma built_advanced_validation_failures_sample :
  ∃ v, ValidationError (UnexpectedAdvancedCount 2) = ValidationError v
       ∧ (advanced_data_violation v ∨ v = MissingFile adv_file).
Proof.
  apply (built_advanced_validation_failures sample_league sample_wc).
  vm_compute. reflexivity.
Defined.

(** ** Standings checks that cannot fire *)

Section StandingsDeadChecks.




End StandingsDeadChecks.



(** ** Derived columns against each other *)





Lemma ratio_add (a b g : Z) :
  (0 < g)%Z → (ratio (a + b) g == ratio a g + ratio b g)%Q.
Proof.
  intros Hg. unfold ratio. rewrite inject_Z_plus.
  assert (¬ (inject_Z g == 0)%Q) as Hnz by (unfold Qeq; cbn; lia).
  by field.
Qed.

(** X12.  For a player with [games > 0], [contributions_per_game] is never
    null: goals and assists that are missing count as 0, so a player with
    neither value gets 0 contributions per game while their
    [goals_per_game] and [assists_per_game] are null.  When both values
    are present it is the sum of the two per-game rates. *)
Theorem contributions_per_game_counts_null_as_zero
    (row : NormPlayerRow) (g : Z) :
  pr_games (np_row row) = Some g → (0 < g)%Z →
  (∃ v, contributions_per_game (derive_player_row row) = Some v
        ∧ goal_contributions (derive_player_row row)
          = Some (default 0 (pr_goals (np_row row))
                  + default 0 (pr_assists (np_row row)))%Z
        ∧ v = ratio (default 0 (pr_goals (np_row row))
                     + default 0 (pr_assists (np_row row))) g)
  ∧ (pr_goals (np_row row) = None → pr_assists (np_row row) = None →
     goals_per_game (derive_player_row row) = None
     ∧ assists_per_game (derive_player_row row) = None
     ∧ ∃ v, contributions_per_game (derive_player_row row) = Some v
            ∧ (v == 0)%Q)
  ∧ (∀ a b : Z,
       pr_goals (np_row row) = Some a → pr_assists (np_row row) = Some b →
       ∃ x y z,
         goals_per_game (derive_player_row row) = Some x
         ∧ assists_per_game (derive_player_row row) = Some y
         ∧ contributions_per_game (derive_player_row row) = Some z
         ∧ (z == x + y)%Q).
Proof.
  intros Hg Hpos.
  cbn [derive_player_row contributions_per_game goal_contributions
       goals_per_game assists_per_game].
  unfold ratio_if_positive, fillna0. rewrite Hg.
  rewrite bool_decide_eq_true_2 by done. repeat apply conj.
  - eauto.
  - intros -> ->. repeat split. eexists. split; [done|].
    unfold ratio. cbn [default from_option id]. unfold Qeq. cbn. lia.
  - intros a b -> ->. eexists _, _, _. repeat split.
    cbn [default from_option id]. by apply ratio_add.
Qed.

Lemma contributions_per_game_sample :
  ∃ v, contributions_per_game
         (derive_player_row
            {| np_player_id := Some 1%Z; np_team_id := Some 4%Z;
               np_row := player_fixture "Reserve" (Some "Qatar")
                           (Some 3%Z) None None |}) = Some v
       ∧ (v == 0)%Q.
Proof.
  exact (proj2 (proj2 (proj1 (proj2
    (contributions_per_game_counts_null_as_zero
       {| np_player_id := Some 1%Z; np_team_id := Some 4%Z;
          np_row := player_fixture "Reserve" (Some "Qatar")
                      (Some 3%Z) None None |} 3%Z eq_refl eq_refl))
    eq_refl eq_refl))).
Defined.

(** X13.  On a standings row that satisfies the validator's two
    identities, with non-negative counts and [played > 0], the derived
    metrics stay in range: the win percentage lies between 0 and 100,
    points per game between 0 and 3, and [clean_sheets], computed as
    [played - losses], is the number of wins plus draws. *)
Theorem derived_standings_metrics_in_range (row : Standing) (w d l p : Z) :
  standing_arithmetic row →
  wins row = Some w → draws row = Some d → losses row = Some l →
  played row = Some p →
  (0 ≤ w)%Z → (0 ≤ d)%Z → (0 ≤ l)%Z → (0 < p)%Z →
  (∃ v, win_percentage (derive_standing_row row) = Some v
        ∧ (0 <= v)%Q ∧ (v <= 100)%Q)
  ∧ (∃ v, points_per_game (derive_standing_row row) = Some v
          ∧ (0 <= v)%Q ∧ (v <= 3)%Q)
  ∧ clean_sheets (derive_standing_row row) = Some (w + d)%Z.
Proof.
  intros (w' & d' & l' & p' & q & Hw' & Hd' & Hl' & Hp' & Hq & Hsum & Hpts)
    Hw Hd Hl Hp Hw0 Hd0 Hl0 Hp0.
  rewrite Hw in Hw'. rewrite Hd in Hd'. rewrite Hl in Hl'. rewrite Hp in Hp'.
  injection Hw' as <-. injection Hd' as <-. injection Hl' as <-.
  injection Hp' as <-. subst q.
  cbn [derive_standing_row win_percentage points_per_game clean_sheets].
  rewrite Hw, Hp, Hl, Hq. unfold pct_if_positive, ratio_if_positive, zsub.
  rewrite !bool_decide_eq_true_2 by lia. repeat apply conj.
  - eexists. split; [done|]. split; [apply pct_nonneg|apply pct_le_100]; lia.
  - eexists. split; [done|]. unfold ratio.
    assert (0 < inject_Z p)%Q as Hpq by (rewrite <- (Zlt_Qlt 0); lia).
    split.
    + apply Qle_shift_div_l; [done|]. rewrite Qmult_0_l, <- (Zle_Qle 0). lia.
    + apply Qle_shift_div_r; [done|].
      change 3%Q with (inject_Z 3). rewrite <- inject_Z_mult, <- Zle_Qle. lia.
  - f_equal. lia.
Qed.

Lemma derived_standings_metrics_sample :
  clean_sheets
    (derive_standing_row
       {| group := Some "A"; rank := Some 1%Z; team := None;
          played := Some 3%Z; wins := Some 1%Z; draws := Some 1%Z;
          losses := Some 1%Z; goals_for := Some 4%Z; goals_against := Some 4%Z;
          st_goal_difference := Some 0%Z; points := Some 4%Z |})
  = Some (1 + 1)%Z.
Proof.
  refine (proj2 (proj2 (derived_standings_metrics_in_range
    {| group := Some "A"; rank := Some 1%Z; team := None;
       played := Some 3%Z; wins := Some 1%Z; draws := Some 1%Z;
       losses := Some 1%Z; goals_for := Some 4%Z; goals_against := Some 4%Z;
       st_goal_difference := Some 0%Z; points := Some 4%Z |} 1 1 1 3
    _ eq_refl eq_refl eq_refl eq_refl _ _ _ _)));
    [|lia..].
  exists 1%Z, 1%Z, 1%Z, 3%Z, 4%Z. repeat split.
Defined.

(** ** What a passed validation certifies *)

Section PassedValidation.

Lemma raise_if_negative_passed {A} (cols : list (string * (A → cell Z)))
    (df : list A) rest :
  raise_if_negative cols df rest = Passed →
  first_negative cols df = None ∧ rest = Passed.
Proof.
  unfold raise_if_negative. by destruct (first_negative cols df).
Qed.

Lemma band_of_checks (n lo hi : nat) :
  bool_decide (n < lo)%nat || bool_decide (hi < n)%nat = false →
  (lo ≤ n ≤ hi)%nat.
Proof.
  rewrite orb_false_iff, !bool_decide_eq_false. lia.
Qed.

Lemma validate_reference_tables_counts teams players :
  validate_reference_tables teams players = Passed →
  ∃ teams_df players_df,
    teams = Some teams_df ∧ players = Some players_df
    ∧ (100 ≤ length teams_df ≤ 150)%nat
    ∧ (600 ≤ length players_df ≤ 800)%nat.
Proof.
  unfold validate_reference_tables. destruct teams as [teams_df|]; [|done].
  destruct players as [players_df|]; [|done].
  unfold validate_teams, validate_players. cbn zeta. intros Hp.
  do 2 apply raise_if_passed in Hp as [_ Hp].
  apply raise_if_passed in Hp as [Hteams Hp].
  do 5 apply raise_if_passed in Hp as [_ Hp].
  apply raise_if_passed in Hp as [Hplayers _].
  apply band_of_checks in Hteams, Hplayers.
  exists teams_df, players_df. repeat split; done || lia.
Qed.

Lemma validate_match_stats_advanced_count adv base :
  validate_match_stats_advanced adv base = Passed →
  ∃ adv_df, adv = Some adv_df ∧ length adv_df = 64%nat.
Proof.
  unfold validate_match_stats_advanced. destruct adv as [adv_df|]; [|done].
  destruct base as [base_df|]; [|done]. cbn zeta.
  intros [Hlen _]%raise_if_passed.
  apply negb_false_iff, bool_decide_eq_true in Hlen. eauto.
Qed.

Lemma validate_players_stats_count stats ref_players :
  validate_players_stats stats ref_players = Passed →
  ∃ df, stats = Some df ∧ (600 ≤ length df ≤ 800)%nat.
Proof.
  unfold validate_players_stats. destruct stats as [df|]; [|done].
  destruct ref_players as [ref_df|]; [|done]. cbn zeta.
  intros [_ [Hlen _]%raise_if_passed]%raise_if_passed.
  exists df. split; [done|]. by apply band_of_checks.
Qed.

End PassedValidation.

(** X14.  A run that passes [validate_all] has all six output tables, and
    their sizes lie in the bands the validator hard-codes: 100 to 150
    teams, 600 to 800 players and player-stat rows, 1800 to 2000 matches,
    exactly 64 advanced rows and exactly 32 standings rows.  A corpus of
    any other size is rejected whatever its content. *)
Theorem validate_all_passed_cardinalities
    (to_datetime_raises : list (cell string) → bool) (out : Outputs) :
  validate_all to_datetime_raises out = Passed →
  ∃ teams_df players_df matches_df adv_df stats_df standings_df,
    ref_teams out = Some teams_df
    ∧ ref_players out = Some players_df
    ∧ db_matches_base_enhanced out = Some matches_df
    ∧ db_match_stats_advanced_enhanced out = Some adv_df
    ∧ db_players_stats_enhanced out = Some stats_df
    ∧ db_standings_enhanced out = Some standings_df
    ∧ (100 ≤ length teams_df ≤ 150)%nat
    ∧ (600 ≤ length players_df ≤ 800)%nat
    ∧ (1800 ≤ length matches_df ≤ 2000)%nat
    ∧ length adv_df = 64%nat
    ∧ (600 ≤ length stats_df ≤ 800)%nat
    ∧ length standings_df = 32%nat.
Proof.
  unfold validate_all.
  intros (Href & (Hbase & (Hadv & (Hstats & Hst)%and_then_passed)
    %and_then_passed)%and_then_passed)%and_then_passed.
  apply validate_reference_tables_counts in Href
    as (teams_df & players_df & Ht & Hp & Hnt & Hnp).
  apply validate_match_stats_advanced_count in Hadv as (adv_df & Ha & Hna).
  apply validate_players_stats_count in Hstats as (stats_df & Hs & Hns).
  destruct (db_standings_enhanced out) as [standings_df|] eqn:Hstd; [|done].
  apply validate_standings_passed in Hst as (Hnst & _).
  unfold validate_matches_base in Hbase.
  destruct (db_matches_base_enhanced out) as [matches_df|]; [|done].
  rewrite Ht in Hbase. cbn zeta in Hbase.
  do 2 apply raise_if_passed in Hbase as [_ Hbase].
  apply raise_if_passed in Hbase as [Hnm _]. apply band_of_checks in Hnm.
  exists teams_df, players_df, matches_df, adv_df, stats_df, standings_df.
  repeat split; done || lia.
Qed.

(** ** What a passing match table looks like *)

Section MatchesValidation.

Lemma has_duplicates_false (ids : list (cell Z)) :
  has_duplicates ids = false ↔ NoDup ids.
Proof.
  unfold has_duplicates. by rewrite negb_false_iff, bool_decide_eq_true.
Qed.

Lemma band_iff (n lo hi : nat) :
  bool_decide (n < lo)%nat || bool_decide (hi < n)%nat = false
  ↔ (lo ≤ n ≤ hi)%nat.
Proof. rewrite orb_false_iff, !bool_decide_eq_false. lia. Qed.

Lemma nonempty_false {A} (l : list A) : nonempty l = false ↔ l = [].
Proof. by destruct l. Qed.

Lemma set_difference_nil_iff (child parent : list (cell Z)) :
  nonempty (set_difference child parent) = false
  ↔ Forall (λ i, is_Some i ∧ i ∈ parent) child.
Proof.
  rewrite nonempty_false. split; [|apply set_difference_nil].
  unfold set_difference. intros Hnil. apply Forall_forall. intros i Hi.
  assert (i ∉ filter (λ i, i = None ∨ i ∉ parent) child) as Hout
    by (rewrite Hnil; apply not_elem_of_nil).
  rewrite list_elem_of_filter in Hout.
  destruct i as [k|].
  - split; [by eexists|].
    destruct (decide (Some k ∈ parent)) as [|Hno]; [done|].
    exfalso. apply Hout. split; [by right|done].
  - exfalso. apply Hout. split; [by left|done].
Qed.

Lemma match_row_checks_true (ids : list (cell Z)) (r : MatchBaseEnhanced) :
  match_row_checks ids r = true ↔
    isnull (match_id (mbe_row r)) = false
    ∧ isnull (home_team_id (mbe_row r)) = false
    ∧ isnull (away_team_id (mbe_row r)) = false
    ∧ (is_Some (home_team_id (mbe_row r)) ∧ home_team_id (mbe_row r) ∈ ids)
    ∧ (is_Some (away_team_id (mbe_row r)) ∧ away_team_id (mbe_row r) ∈ ids)
    ∧ zeq (home_team_id (mbe_row r)) (away_team_id (mbe_row r)) = false
    ∧ zlt (home_goals (mbe_row r)) (Some 0) = false
    ∧ zlt (away_goals (mbe_row r)) (Some 0) = false
    ∧ zlt (home_shots (mbe_row r)) (Some 0) = false
    ∧ zgt (home_sot (mbe_row r)) (home_shots (mbe_row r)) = false
    ∧ zgt (away_sot (mbe_row r)) (away_shots (mbe_row r)) = false
    ∧ qgt (home_shot_accuracy r) (Some 100%Q) = false
    ∧ match result r with
      | Some v => negb (bool_decide (v ∈ ["H"; "A"; "D"]))
      | None => false
      end = false.
Proof.
  unfold match_row_checks, isnull. cbn zeta.
  rewrite !andb_true_iff, !negb_true_iff, !negb_false_iff, !bool_decide_eq_true.
  assert (∀ c : cell Z, notna c = true ↔ is_Some c) as Hsome.
  { intros [k|]; cbn; split; try done; try (by eexists); by intros [? ?]. }
  assert (match result r with
          | Some v => bool_decide (v ∈ ["H"; "A"; "D"])
          | None => true
          end = true
          ↔ match result r with
            | Some v => negb (bool_decide (v ∈ ["H"; "A"; "D"]))
            | None => false
            end = false) as Hres.
  { destruct (result r); [by rewrite negb_false_iff|done]. }
  rewrite Hres, !Hsome. tauto.
Qed.

End MatchesValidation.

(** The chain of checks of [validate_matches_base] as one test per row. *)
Lemma validate_matches_base_row_checks
    (to_datetime_raises : list (cell string) → bool)
    (df : list MatchBaseEnhanced) (teams_df : list Team) :
  validate_matches_base to_datetime_raises (Some df) (Some teams_df) = Passed
  ↔ NoDup (map (λ r, match_id (mbe_row r)) df)
    ∧ (1800 ≤ length df ≤ 2000)%nat
    ∧ Forall (λ r, match_row_checks (map team_id teams_df) r = true) df
    ∧ to_datetime_raises (map (λ r, date (mbe_row r)) df) = false.
Proof.
  unfold validate_matches_base. cbn zeta.
  rewrite !raise_if_passed, !count_rows_pos, !existsb_false_Forall.
  rewrite has_duplicates_false, band_iff, !set_difference_nil_iff, !Forall_fmap.
  rewrite (Forall_iff _ df _ (match_row_checks_true (map team_id teams_df))).
  unfold compose. rewrite !Forall_and.
  intuition auto.
Qed.

(** The corpus passes every validator; its match table is handled through
    the row test, the other tables by evaluation. *)
Lemma corpus_matches_pass :
  validate_matches_base (λ _, false) (Some corpus_matches) (Some corpus_teams)
  = Passed.
Proof.
  apply validate_matches_base_row_checks. unfold corpus_matches.
  split; [|split; [|split; [|done]]].
  - rewrite map_map. cbn [derive_match_row mbe_row score_row match_id].
    apply (NoDup_fmap_2 Some), NoDup_seqZ.
  - rewrite length_map, length_seqZ. lia.
  - apply Forall_fmap, Forall_forall. intros k _. reflexivity.
Qed.

Lemma corpus_passes : validate_all (λ _, false) corpus = Passed.
Proof.
  unfold validate_all.
  apply and_then_passed. split; [vm_compute; reflexivity|].
  apply and_then_passed. split; [exact corpus_matches_pass|].
  apply and_then_passed. split; [vm_compute; reflexivity|].
  apply and_then_passed. split; vm_compute; reflexivity.
Qed.

Lemma validate_all_passed_cardinalities_corpus :
  ∃ teams_df players_df matches_df adv_df stats_df standings_df,
    ref_teams corpus = Some teams_df
    ∧ ref_players corpus = Some players_df
    ∧ db_matches_base_enhanced corpus = Some matches_df
    ∧ db_match_stats_advanced_enhanced corpus = Some adv_df
    ∧ db_players_stats_enhanced corpus = Some stats_df
    ∧ db_standings_enhanced corpus = Some standings_df
    ∧ (100 ≤ length teams_df ≤ 150)%nat
    ∧ (600 ≤ length players_df ≤ 800)%nat
    ∧ (1800 ≤ length matches_df ≤ 2000)%nat
    ∧ length adv_df = 64%nat
    ∧ (600 ≤ length stats_df ≤ 800)%nat
    ∧ length standings_df = 32%nat.
Proof.
  apply (validate_all_passed_cardinalities (λ _, false) corpus).
  exact corpus_passes.
Defined.

Section Comparisons.

Lemma zgt_false (a b : cell Z) :
  zgt a b = false ↔ ∀ x y, a = Some x → b = Some y → (x ≤ y)%Z.
Proof.
  destruct a as [x|], b as [y|]; cbn [zgt]; try (split; [intros; simplify_eq|done]).
  rewrite bool_decide_eq_false. split.
  - intros Hle ? ? [= <-] [= <-]. lia.
  - intros Hle. specialize (Hle x y eq_refl eq_refl). lia.
Qed.

Lemma zlt_zero_false (c : cell Z) :
  zlt c (Some 0) = false ↔ ∀ g, c = Some g → (0 ≤ g)%Z.
Proof.
  unfold zlt. rewrite zgt_false. split.
  - intros H g Hg. by apply (H 0 g).
  - intros H ? ? [= <-] Hg. by apply H.
Qed.

Lemma qgt_100_false (c : cell Q) :
  qgt c (Some 100%Q) = false ↔ ∀ q, c = Some q → (q <= 100)%Q.
Proof.
  destruct c as [x|]; cbn [qgt]; [|split; [intros; simplify_eq|done]].
  rewrite negb_false_iff, Qle_bool_iff. split.
  - by intros Hle ? [= <-].
  - intros Hle. by apply Hle.
Qed.

Lemma match_row_checks_valid (teams_df : list Team) (r : MatchBaseEnhanced) :
  match_row_checks (map team_id teams_df) r = true ↔ match_row_valid teams_df r.
Proof.
  rewrite match_row_checks_true. unfold match_row_valid. cbn zeta.
  rewrite !zlt_zero_false, !zgt_false, qgt_100_false.
  assert (match result r with
          | Some v => negb (bool_decide (v ∈ ["H"; "A"; "D"]))
          | None => false
          end = false
          ↔ ∀ v, result r = Some v → v ∈ ["H"; "A"; "D"]) as ->.
  { destruct (result r) as [v|]; [|split; [intros; simplify_eq|done]].
    rewrite negb_false_iff, bool_decide_eq_true. split.
    - by intros Hv ? [= <-].
    - intros Hv. by apply Hv. }
  assert (∀ (ids : cell Z), ids ∈ map team_id teams_df
            ↔ ∃ t, t ∈ teams_df ∧ team_id t = ids) as Hmem.
  { intros c. rewrite list_elem_of_fmap. split; intros (t & ? & ?); eauto. }
  split.
  - intros (Hm & Hh & Ha & [[h Hh'] Hhin] & [[a Ha'] Hain] & Hne & Hrest).
    split; [|exact Hrest].
    destruct (match_id (mbe_row r)) as [m|] eqn:Hmid; [|done].
    exists m, h, a. rewrite Hh', Ha' in *. cbn [zeq] in Hne.
    apply bool_decide_eq_false in Hne.
    repeat split; try done; by apply Hmem.
  - intros [(m & h & a & Hm & Hh & Ha & Hne & Hhin & Hain) Hrest].
    rewrite Hm, Hh, Ha. cbn [isnull notna negb zeq].
    repeat split; try done; try (by eexists); try (by apply Hmem);
      try (by apply bool_decide_eq_false); apply Hrest.
Qed.

End Comparisons.

(** X15.  [validate_matches_base] lets a match table through exactly when
    the match ids are pairwise distinct, the table has 1800 to 2000 rows,
    the date column parses, and every row has its three ids, two different
    team ids that both occur in the Teams table, no negative goal or
    home-shot count, no more shots on target than shots, a home shot
    accuracy of at most 100 and a result among H, A, D.  Only the ids have
    to be present: a missing goal, shot, accuracy or result value
    satisfies its condition, and away shots are not checked for sign. *)
Theorem validate_matches_base_passed_iff
    (to_datetime_raises : list (cell string) → bool)
    (df : list MatchBaseEnhanced) (teams_df : list Team) :
  validate_matches_base to_datetime_raises (Some df) (Some teams_df) = Passed
  ↔ NoDup (map (λ r, match_id (mbe_row r)) df)
    ∧ (1800 ≤ length df ≤ 2000)%nat
    ∧ Forall (match_row_valid teams_df) df
    ∧ to_datetime_raises (map (λ r, date (mbe_row r)) df) = false.
Proof.
  rewrite validate_matches_base_row_checks.
  by rewrite (Forall_iff _ df _ (match_row_checks_valid teams_df)).
Qed.

Lemma validate_matches_base_passed_corpus :
  NoDup (map (λ r, match_id (mbe_row r)) corpus_matches)
  ∧ (1800 ≤ length corpus_matches ≤ 2000)%nat
  ∧ Forall (match_row_valid corpus_teams) corpus_matches
  ∧ (λ _ : list (cell string), false)
      (map (λ r, date (mbe_row r)) corpus_matches) = false.
Proof.
  apply (proj1 (validate_matches_base_passed_iff (λ _, false)
                  corpus_matches corpus_teams)).
  exact corpus_matches_pass.
Defined.

(** X16.  Missing goals do not fail the match validation.  Take any table
    that passes [validate_matches_base] and any of its rows, erase the
    row's two goal values and derive its metrics again: the table still
    passes.  The re-derived row has no goal difference and no goal total,
    and its result is a draw. *)
Theorem erasing_goals_keeps_matches_valid
    (to_datetime_raises : list (cell string) → bool)
    (df : list MatchBaseEnhanced) (teams_df : list Team)
    (i : nat) (r : MatchBaseEnhanced) :
  validate_matches_base to_datetime_raises (Some df) (Some teams_df) = Passed →
  df !! i = Some r →
  let r' := derive_match_row (without_goals (mbe_row r)) in
  validate_matches_base to_datetime_raises (Some (<[i := r']> df))
    (Some teams_df) = Passed
  ∧ goal_difference r' = None ∧ total_goals r' = None
  ∧ result r' = Some "D".
Proof.
  intros Hok Hi r'. split; [|done].
  apply validate_matches_base_row_checks in Hok as (Hnd & Hlen & Hrows & Hdate).
  apply validate_matches_base_row_checks.
  assert (∀ {B} (f : MatchBase → B),
            (∀ b, f (without_goals b) = f b) →
            map (λ x, f (mbe_row x)) (<[i := r']> df)
            = map (λ x, f (mbe_row x)) df) as Hcol.
  { intros B f Hf. rewrite list_fmap_insert. apply list_insert_id.
    rewrite list_lookup_fmap, Hi. cbn. f_equal. symmetry. apply Hf. }
  rewrite (Hcol _ match_id), (Hcol _ date), length_insert by done.
  repeat split; try done; try lia.
  apply Forall_insert; [done|].
  pose proof (proj1 (Forall_lookup _ _) Hrows i r Hi) as Hr.
  apply match_row_checks_true in Hr
    as (H1 & H2 & H3 & H4 & H5 & H6 & _ & _ & H9 & H10 & H11 & _ & _).
  apply match_row_checks_true. cbn.
  repeat split; try done; try tauto.
  destruct (qgt (pct_if_positive (home_sot (mbe_row r)) (home_shots (mbe_row r)))
              (Some 100%Q)) eqn:Hq; [|done].
  apply pct_if_positive_over_100 in Hq. congruence.
Qed.

Lemma erasing_goals_keeps_matches_valid_corpus :
  let r' := derive_match_row
              (without_goals (score_row 1 1 2 (Some 1) (Some 0))) in
  validate_matches_base (λ _, false) (Some (<[0%nat := r']> corpus_matches))
    (Some corpus_teams) = Passed
  ∧ goal_difference r' = None ∧ total_goals r' = None
  ∧ result r' = Some "D".
Proof.
  apply (erasing_goals_keeps_matches_valid (λ _, false) corpus_matches
           corpus_teams 0
           (derive_match_row (score_row 1 1 2 (Some 1) (Some 0)))).
  - exact corpus_matches_pass.
  - reflexivity.
Defined.

(** ** What passing reference tables look like *)

Section ReferenceValidation.

Lemma series_min_le (rest : list Z) : ∀ x : Z,
  (series_min x rest ≤ x)%Z ∧ Forall (λ y, (series_min x rest ≤ y)%Z) rest.
Proof.
  unfold series_min. induction rest as [|r rest IH]; intros x; cbn [foldl].
  - split; [lia|constructor].
  - destruct (IH (Z.min x r)) as [Hx Hrest]. split; [lia|].
    constructor; [lia|done].
Qed.

Lemma series_max_ge (rest : list Z) : ∀ x : Z,
  (x ≤ series_max x rest)%Z ∧ Forall (λ y, (y ≤ series_max x rest)%Z) rest.
Proof.
  unfold series_max. induction rest as [|r rest IH]; intros x; cbn [foldl].
  - split; [lia|constructor].
  - destruct (IH (Z.max x r)) as [Hx Hrest]. split; [lia|].
    constructor; [lia|done].
Qed.

Lemma validate_ages_passed (players_df : list Player) rest :
  validate_ages players_df rest = Passed →
  Forall (λ a, (15 ≤ a ≤ 45)%Z) (omap age players_df) ∧ rest = Passed.
Proof.
  unfold validate_ages. destruct (omap age players_df) as [|a ages]; [done|].
  intros [Hc ->]%raise_if_passed. split; [|done].
  apply orb_false_iff in Hc as [Hlo Hhi].
  apply bool_decide_eq_false in Hlo, Hhi.
  destruct (series_min_le ages a) as [Hmin Hmins].
  destruct (series_max_ge ages a) as [Hmax Hmaxs].
  constructor; [lia|].
  apply Forall_forall. intros y Hy.
  rewrite Forall_forall in Hmins. rewrite Forall_forall in Hmaxs.
  specialize (Hmins y Hy). specialize (Hmaxs y Hy). lia.
Qed.

End ReferenceValidation.

(** X17.  Reference tables that pass [validate_reference_tables] are
    sound keys: team ids and player ids are present and pairwise
    distinct, every competition type is league or international, every
    player carries the id of a row of the Teams table, and every age that
    is present lies between 15 and 45.  A player without age is
    accepted. *)
Theorem validate_reference_tables_passed
    (teams_df : list Team) (players_df : list Player) :
  validate_reference_tables (Some teams_df) (Some players_df) = Passed →
  NoDup (map team_id teams_df)
  ∧ Forall (λ t, is_Some (team_id t)
                 ∧ competition_type t ∈ ["league"; "international"]) teams_df
  ∧ NoDup (map player_id players_df)
  ∧ Forall (λ p, is_Some (player_id p)
                 ∧ is_Some (p_team_id p)
                 ∧ (∃ t, t ∈ teams_df ∧ team_id t = p_team_id p)
                 ∧ ∀ a, age p = Some a → (15 ≤ a ≤ 45)%Z) players_df.
Proof.
  unfold validate_reference_tables, validate_teams, validate_players.
  cbn zeta. rewrite !raise_if_passed, !existsb_false_Forall.
  rewrite !has_duplicates_false, set_difference_nil_iff, Forall_fmap.
  intros (Htid & Htnd & _ & Htype & Hpid & Hptid & Hpnd & Hfk & _ & Hages).
  apply validate_ages_passed in Hages as [Hages _].
  assert (∀ c : cell Z, isnull c = false → is_Some c) as Hsome.
  { intros [k|]; [by eexists|done]. }
  repeat split; [done| |done|].
  - apply Forall_forall. intros t Ht.
    rewrite Forall_forall in Htid. rewrite Forall_forall in Htype.
    split; [by apply Hsome, Htid|].
    specialize (Htype t Ht). cbn beta in Htype.
    by apply negb_false_iff, bool_decide_eq_true in Htype.
  - apply Forall_forall. intros p Hp.
    rewrite Forall_forall in Hpid. rewrite Forall_forall in Hptid.
    rewrite Forall_forall in Hfk. rewrite Forall_forall in Hages.
    split; [|split; [|split]].
    + by apply Hsome, Hpid.
    + by apply Hsome, Hptid.
    + destruct (Hfk p Hp) as [_ Hin]. cbn in Hin.
      apply list_elem_of_fmap in Hin as (t & Heq & Ht). eauto.
    + intros y Hy. apply Hages. apply list_elem_of_omap. eauto.
Qed.

Lemma validate_reference_tables_passed_corpus :
  NoDup (map team_id corpus_teams)
  ∧ Forall (λ t, is_Some (team_id t)
                 ∧ competition_type t ∈ ["league"; "international"]) corpus_teams
  ∧ NoDup (map player_id corpus_players)
  ∧ Forall (λ p, is_Some (player_id p)
                 ∧ is_Some (p_team_id p)
                 ∧ (∃ t, t ∈ corpus_teams ∧ team_id t = p_team_id p)
                 ∧ ∀ a, age p = Some a → (15 ≤ a ≤ 45)%Z) corpus_players.
Proof.
  apply (validate_reference_tables_passed corpus_teams corpus_players).
  vm_compute. reflexivity.
Defined.

(** ** Ranks within a group *)

Section RankUniqueness.

Context {A : Type} `{EqDecision A}.

Lemma elem_of_unique (l : list A) (x : A) : x ∈ unique l ↔ x ∈ l.
Proof.
  induction l as [|y l IH]; [done|]. cbn [unique].
  rewrite !elem_of_cons, list_elem_of_filter, IH.
  destruct (decide (x = y)); tauto.
Qed.

Lemma length_unique_le (l : list A) : (length (unique l) ≤ length l)%nat.
Proof.
  induction l as [|y l IH]; [done|]. cbn [unique length].
  pose proof (length_filter (λ z, z ≠ y) (unique l)). lia.
Qed.

Lemma length_filter_eq (P : A → Prop) `{!∀ x, Decision (P x)} (l : list A) :
  length (filter P l) = length l → Forall P l.
Proof.
  induction l as [|y l IH]; [constructor|].
  rewrite filter_cons. pose proof (length_filter P l).
  destruct (decide (P y)); cbn [length]; intros Hlen; [|lia].
  constructor; [done|]. apply IH. lia.
Qed.

Lemma unique_length_NoDup (l : list A) :
  length (unique l) = length l → NoDup l.
Proof.
  induction l as [|y l IH]; [constructor|]. cbn [unique length]. intros Hlen.
  pose proof (length_filter (λ z, z ≠ y) (unique l)).
  pose proof (length_unique_le l).
  apply NoDup_cons. split; [|apply IH; lia].
  assert (Forall (λ z, z ≠ y) (unique l)) as Hall
    by (apply (length_filter_eq (λ z, z ≠ y) (unique l)); lia).
  rewrite <- elem_of_unique. intros Hin.
  rewrite Forall_forall in Hall. by apply (Hall y Hin).
Qed.

End RankUniqueness.

(** X18.  In a standings table that passes [validate_standings], no two
    rows of the same group share a rank; two missing ranks count as the
    same rank.  Rows without a group are not compared with each other. *)
Theorem validate_standings_ranks_distinct
    (df : list StandingEnhanced) (g : string) :
  validate_standings (Some df) = Passed →
  NoDup (map (λ r, rank (se_row r)) (group_rows (Some g) df)).
Proof.
  intros (_ & _ & Hother)%validate_standings_passed.
  unfold standings_other_checks in Hother. cbn zeta in Hother.
  apply raise_if_negative_passed in Hother as [_ Hother].
  do 3 apply raise_if_passed in Hother as [_ Hother].
  destruct (first_duplicate_rank_group df) as [?|] eqn:Hfind; [done|].
  destruct (decide (Some g ∈ map (λ r, group (se_row r)) df)) as [Hin|Hout].
  - unfold first_duplicate_rank_group in Hfind.
    assert (In (Some g) (unique (map (λ r, group (se_row r)) df))) as Hin'
      by by apply list_elem_of_In, elem_of_unique.
    pose proof (find_none _ _ Hfind (Some g) Hin') as Hg. cbn beta in Hg.
    apply negb_false_iff, bool_decide_eq_true in Hg.
    apply unique_length_NoDup. by rewrite length_map.
  - unfold group_rows. rewrite filter_none; [constructor|].
    apply Forall_forall. intros r Hr [_ Heq]. apply Hout.
    apply list_elem_of_fmap. eauto.
Qed.

Lemma validate_standings_ranks_distinct_sample :
  NoDup (map (λ r, rank (se_row r)) (group_rows (Some "A") sample_standings)).
Proof.
  apply (validate_standings_ranks_distinct sample_standings "A").
  vm_compute. reflexivity.
Defined.

(** ** Player statistics of a run *)


